(** * GSA_tools: acquisition-and-classification pipeline

    A shallow embedding of [GSA_tools.py] and of
    [additional_scripts/read_manifest_writer.py].

    Conventions of the embedding.
    - A Python [str] is a list of characters ([str := list ascii]); the
      characters are the code points below 256, for which the Python notions
      used by the program ([str.isspace], [str.lower], case-insensitive
      regular-expression literals, code-point ordering) are finite tables
      written out below.  Byte-order marks and encodings live below this level.
    - A file is its text.  Opening it for reading in text mode applies
      Python's universal-newline translation; writing on a POSIX system
      leaves ["\n"] alone.
    - A function that rewrites a file in place (write a temporary file, then
      move it over the original) is the function from old to new text.
    - Exceptions are explicit: a computation returns [Ok v] or [Raise e].
    - A thread pool is one schedule of its tasks: the metadata tasks finish
      in an order given from outside, each seeing the page of its own
      accession; the download tasks are cut into the batches of
      [multiprocessing.pool], which run one after the other in list order.
      The number of threads is positive.
    - Directories made through [pathlib] are made; [os.makedirs] in a
      download task may raise.
    - The browser, the sites, pandas' parser, [wget] and the directory tree
      found on disk are collaborators: their answers are inputs of the
      functions that use them. *)

From Stdlib Require Import Ascii String List ZArith Lia Bool DecimalString.
From stdpp Require Import base list gmap strings sorting.
Import ListNotations.
Open Scope string_scope.
Open Scope list_scope.
Set Warnings "-register-all".

Abbreviation str := (list ascii).
Coercion list_ascii_of_string : string >-> list.

(* ===================================================================== *)
(** ** Python strings *)
(* ===================================================================== *)

Module PyStr.

Definition LF : ascii := "010"%char.
Definition CR : ascii := "013"%char.
Definition TAB : ascii := "009"%char.
Definition COMMA : ascii := ","%char.
Definition QUOTE : ascii := "034"%char.

(** [str.isspace] on one character (code points below 256):
    ["\t\n\x0b\x0c\r"], ["\x1c".."\x1f"], [" "], ["\x85"], ["\xa0"]. *)
Definition is_space (c : ascii) : bool :=
  let n := N_of_ascii c in
  ((9 <=? n) && (n <=? 13) || (28 <=? n) && (n <=? 32)
   || (n =? 133) || (n =? 160))%N.

(** [str.lower] on one character: [A-Z], and Latin-1 capitals except the
    multiplication sign. *)
Definition lower_char (c : ascii) : ascii :=
  let n := N_of_ascii c in
  if ((65 <=? n) && (n <=? 90)
      || (192 <=? n) && (n <=? 222) && negb (n =? 215))%N
  then ascii_of_N (n + 32) else c.

Definition lower (s : str) : str := map lower_char s.

(** Drop the leading characters that satisfy [p]. *)
Fixpoint lstrip_by (p : ascii -> bool) (s : str) : str :=
  match s with
  | [] => []
  | c :: s' => if p c then lstrip_by p s' else s
  end.

Definition rstrip_by (p : ascii -> bool) (s : str) : str :=
  rev (lstrip_by p (rev s)).

(** [s.strip()] *)
Definition strip (s : str) : str := rstrip_by is_space (lstrip_by is_space s).

(** [s.rstrip("\n")] *)
Definition rstrip_nl (s : str) : str := rstrip_by (Ascii.eqb LF) s.

(** [s.split(sep)] for a one-character separator: never the empty list. *)
Fixpoint split (sep : ascii) (s : str) : list str :=
  match s with
  | [] => [[]]
  | c :: s' =>
      if Ascii.eqb c sep then [] :: split sep s'
      else match split sep s' with
           | f :: fs => (c :: f) :: fs
           | [] => [[c]]
           end
  end.

(** [sep.join(parts)] *)
Fixpoint join (sep : str) (parts : list str) : str :=
  match parts with
  | [] => []
  | [p] => p
  | p :: ps => p ++ sep ++ join sep ps
  end.

(** [s.startswith(p)] *)
Fixpoint startswith (p s : str) : bool :=
  match p, s with
  | [], _ => true
  | _ :: _, [] => false
  | a :: p', b :: s' => Ascii.eqb a b && startswith p' s'
  end.

(** [needle in hay] *)
Fixpoint contains (needle hay : str) : bool :=
  startswith needle hay ||
  match hay with
  | [] => false
  | _ :: hay' => contains needle hay'
  end.

(** [s.replace(a, b)] for one-character [a]. *)
Definition replace_char (a : ascii) (b : str) (s : str) : str :=
  flat_map (fun c => if Ascii.eqb c a then b else [c]) s.

(** Code-point order on strings: Python's [<=] on [str]. *)
Fixpoint leb (s t : str) : bool :=
  match s, t with
  | [], _ => true
  | _ :: _, [] => false
  | a :: s', b :: t' =>
      match N.compare (N_of_ascii a) (N_of_ascii b) with
      | Lt => true
      | Gt => false
      | Eq => leb s' t'
      end
  end.

Definition le (s t : str) : Prop := leb s t = true.

#[global] Instance le_dec : RelDecision le := fun s t => decide (leb s t = true).

(** [sorted(strings)] *)
Definition sorted_strs (l : list str) : list str := merge_sort le l.

(** [re.sub(r"\s+", "_", s)]: every maximal run of whitespace becomes one
    underscore.  [in_run] tells that the previous character was whitespace. *)
Fixpoint sub_ws (in_run : bool) (s : str) : str :=
  match s with
  | [] => []
  | c :: s' =>
      if is_space c then
        if in_run then sub_ws true s' else "_"%char :: sub_ws true s'
      else c :: sub_ws false s'
  end.

(** [os.path.basename(p)]: what follows the last slash. *)
Definition basename (p : str) : str := List.last (split "/" p) [].

(** *** Text files *)

(** Universal newlines on read: ["\r\n"] and a lone ["\r"] become ["\n"]. *)
Fixpoint universal_newlines (s : str) : str :=
  match s with
  | [] => []
  | c :: s' =>
      if Ascii.eqb c CR then
        match s' with
        | d :: _ => if Ascii.eqb d LF then universal_newlines s'
                    else LF :: universal_newlines s'
        | [] => [LF]
        end
      else c :: universal_newlines s'
  end.

(** Iterating a text stream: the lines, each with its ["\n"] when it has
    one (only the last line can lack it). *)
Fixpoint readlines (s : str) : list str :=
  match s with
  | [] => []
  | c :: s' =>
      if Ascii.eqb c LF then [LF] :: readlines s'
      else match readlines s' with
           | l :: ls => (c :: l) :: ls
           | [] => [[c]]
           end
  end.

(** [open(path, "r")] followed by iteration over the whole file. *)
Definition file_lines (content : str) : list str :=
  readlines (universal_newlines content).

End PyStr.

(* ===================================================================== *)
(** ** RunInfo table: truncate, filter, row count *)
(* ===================================================================== *)

Module RunInfo.
Import PyStr.

(** Body of the loop of [truncate_runinfo]: what is written for one line. *)
Definition truncate_line (ncols : nat) (line : str) : str :=
  let parts := split COMMA (strip line) in
  join "," (firstn ncols parts) ++ [LF].

(** [truncate_runinfo(runinfo_path, ncols=22)]: old text to new text. *)
Definition truncate_runinfo (ncols : nat) (content : str) : str :=
  concat (map (truncate_line ncols) (file_lines content)).

(** The test of the loop of [filter_runinfo_by_scientific_name]: is the line
    written? *)
Definition row_matches (genome_lc : str) (line : str) : bool :=
  let cols := split COMMA (rstrip_nl line) in
  if (length cols <? 22)%nat then false
  else
    let scientific_name := lower (nth 21 cols []) in
    contains genome_lc scientific_name.

(** [filter_runinfo_by_scientific_name(runinfo_path, genome)]: old text to
    new text.  [readline] gives the first line, or the empty string at end of
    file; the loop goes over the remaining lines. *)
Definition filter_runinfo_by_scientific_name (content genome : str) : str :=
  let genome_lc := lower genome in
  let infile := file_lines content in
  let header := hd [] infile in
  header ++ concat (filter (row_matches genome_lc) (tl infile)).

(** [n_rows = sum(1 for _ in f) - 1] in [process_genome]. *)
Definition n_rows (content : str) : Z :=
  Z.of_nat (length (file_lines content)) - 1.

End RunInfo.

(* ===================================================================== *)
(** ** Exceptions *)
(* ===================================================================== *)

Inductive exn :=
| ValueError (msg : str)
| KeyError (key : str)
| SystemExit (msg : str)
| WebDriverException (msg : str)
| OSError (msg : str)
| ParserError (msg : str).

Inductive result (A : Type) :=
| Ok (a : A)
| Raise (e : exn).
Arguments Ok {A} a.
Arguments Raise {A} e.

Definition bind {A B} (c : result A) (k : A -> result B) : result B :=
  match c with
  | Ok a => k a
  | Raise e => Raise e
  end.

Notation "'let!' x ':=' c 'in' k" := (bind c (fun x => k))
  (at level 10, x name, c at level 100, k at level 200).

(** The exit status of the interpreter: 0 on a normal return, 1 when an
    exception (or [sys.exit] with a message) reaches the top level. *)
Definition exit_code {A} (r : result A) : Z :=
  match r with
  | Ok _ => 0
  | Raise _ => 1
  end.

(* ===================================================================== *)
(** ** Regular expressions (the fragment of [re] the program uses) *)
(* ===================================================================== *)

Module Regex.
Import PyStr.

Inductive re :=
| Chr (c : ascii)          (* a literal character *)
| Cls (cs : str)           (* [...] *)
| Eps                      (* the empty pattern *)
| Bol                      (* ^ *)
| Eol                      (* $ *)
| Cat (r1 r2 : re)
| Alt (r1 r2 : re)         (* r1|r2 *)
| Opt (r : re)             (* r? (greedy) *)
| Look (r : re).           (* (?=r) *)

(** Character comparison; under [re.IGNORECASE] both sides are lowered. *)
Definition chr_eq (ignorecase : bool) (c d : ascii) : bool :=
  if ignorecase then Ascii.eqb (lower_char c) (lower_char d)
  else Ascii.eqb c d.

(** Backtracking matcher in continuation style: [k] receives the position
    and the rest of the subject after the match.  [pos] is the offset of [s]
    in the whole subject. *)
Fixpoint matches (ic : bool) (r : re) (pos : nat) (s : str)
    (k : nat -> str -> bool) : bool :=
  match r with
  | Chr c =>
      match s with
      | d :: s' => chr_eq ic c d && k (S pos) s'
      | [] => false
      end
  | Cls cs =>
      match s with
      | d :: s' => existsb (fun c => chr_eq ic c d) cs && k (S pos) s'
      | [] => false
      end
  | Eps => k pos s
  | Bol => Nat.eqb pos 0 && k pos s
  | Eol =>
      match s with
      | [] => k pos s
      | [c] => Ascii.eqb c LF && k pos s
      | _ => false
      end
  | Cat r1 r2 => matches ic r1 pos s (fun pos' s' => matches ic r2 pos' s' k)
  | Alt r1 r2 => matches ic r1 pos s k || matches ic r2 pos s k
  | Opt r1 => matches ic r1 pos s k || k pos s
  | Look r1 => matches ic r1 pos s (fun _ _ => true) && k pos s
  end.

Fixpoint search_from (ic : bool) (r : re) (pos : nat) (s : str) : bool :=
  matches ic r pos s (fun _ _ => true) ||
  match s with
  | [] => false
  | _ :: s' => search_from ic r (S pos) s'
  end.

(** [bool(pattern.search(s))] *)
Definition search (ic : bool) (r : re) (s : str) : bool := search_from ic r 0 s.

(** A literal word. *)
Definition lit (w : str) : re := fold_right (fun c r => Cat (Chr c) r) Eps w.

(** [fnmatch] for patterns made of literal characters and [*], as used by
    [Path.glob] on one path component (case-sensitive on POSIX). *)
Fixpoint fnmatch (pat : str) : str -> bool :=
  match pat with
  | [] => fun s => match s with [] => true | _ :: _ => false end
  | p :: pat' =>
      if Ascii.eqb p "*" then
        fix star (s : str) : bool :=
          fnmatch pat' s ||
          match s with
          | [] => false
          | _ :: s' => star s'
          end
      else
        fun s =>
          match s with
          | c :: s' => Ascii.eqb p c && fnmatch pat' s'
          | [] => false
          end
  end.

End Regex.

(* ===================================================================== *)
(** ** Paths and directory snapshots *)
(* ===================================================================== *)

Module PyPath.
Import PyStr.

(** A [pathlib.Path] is its tuple of parts; an absolute path starts with the
    part ["/"]. *)
Abbreviation Path := (list str).

Definition is_absolute (p : Path) : bool :=
  match p with
  | r :: _ => bool_decide (r = ("/" : str))
  | [] => false
  end.

(** [str(p)] *)
Definition path_str (p : Path) : str :=
  match p with
  | [] => "."
  | r :: rest =>
      if bool_decide (r = ("/" : str)) then "/" ++ join "/" rest
      else join "/" p
  end.

(** [p.name] *)
Definition name (p : Path) : str :=
  match p with
  | [r] => if bool_decide (r = ("/" : str)) then [] else r
  | _ => List.last p []
  end.

(** [p / child] for a single relative component. *)
Definition child (p : Path) (c : str) : Path := p ++ [c].

(** [p / s] for an arbitrary string [s]: [s] is cut at slashes, empty and
    ["."] components are dropped, and an absolute [s] replaces [p]. *)
Definition joinpath (p : Path) (s : str) : Path :=
  let parts :=
    filter (fun c => c <> [] /\ c <> ("." : str)) (split "/" s) in
  if startswith "/" s then ("/" : str) :: parts else p ++ parts.

(** Order of paths: the order of their tuples of parts. *)
Fixpoint path_leb (p q : Path) : bool :=
  match p, q with
  | [], _ => true
  | _ :: _, [] => false
  | a :: p', b :: q' =>
      if bool_decide (a = b) then path_leb p' q' else PyStr.leb a b
  end.

Definition path_le (p q : Path) : Prop := path_leb p q = true.

#[global] Instance path_le_dec : RelDecision path_le :=
  fun p q => decide (path_leb p q = true).

(** [sorted(xs)] for objects ordered as the paths [key x]. *)
Definition le_on {A} (key : A -> Path) (a b : A) : Prop :=
  path_le (key a) (key b).

#[global] Instance le_on_dec {A} (key : A -> Path) : RelDecision (le_on key) :=
  fun a b => decide (path_leb (key a) (key b) = true).

Definition sorted_on {A} (key : A -> Path) (xs : list A) : list A :=
  merge_sort (le_on key) xs.

(** [sorted(paths)] *)
Definition sorted (ps : list Path) : list Path := sorted_on (fun p => p) ps.

(** A directory snapshot: the tree below some directory, entries in the
    order the operating system lists them.  No symbolic links. *)
Inductive node :=
| File
| Dir (entries : list (str * node)).

Definition is_dir (n : node) : bool :=
  match n with
  | Dir _ => true
  | File => false
  end.

(** [p.glob("*/*/.../*")] with [depth] stars, [depth >= 1]: every entry at
    exactly that depth, with its path. *)
Fixpoint glob_stars (depth : nat) (p : Path) (n : node) : list (Path * node) :=
  match depth with
  | 0 => [(p, n)]
  | S d =>
      match n with
      | File => []
      | Dir entries =>
          flat_map (fun e => glob_stars d (child p (fst e)) (snd e)) entries
      end
  end.

(** [p.glob(pattern)] for a one-component pattern. *)
Definition glob_names (pat : str) (p : Path) (n : node) : list Path :=
  match n with
  | File => []
  | Dir entries =>
      map (fun e => child p (fst e))
          (filter (fun e => Is_true (Regex.fnmatch pat (fst e))) entries)
  end.

(** Collapse [..] components, as [Path.resolve] does. *)
Fixpoint normalize (acc : Path) (parts : list str) : Path :=
  match parts with
  | [] => acc
  | c :: rest =>
      if bool_decide (c = (".." : str)) then
        normalize (match acc with
                   | [r] => if bool_decide (r = ("/" : str)) then acc else []
                   | _ => removelast acc
                   end) rest
      else normalize (acc ++ [c]) rest
  end.

(** [p.resolve()] in a process whose working directory is [cwd]
    (an absolute, resolved path). *)
Definition resolve (cwd : Path) (p : Path) : Path :=
  if is_absolute p then normalize ["/" : str] (tl p)
  else normalize cwd p.

(** [str(n)] for a non-negative integer. *)
Definition str_of_nat (n : nat) : str :=
  list_ascii_of_string (NilZero.string_of_uint (Nat.to_uint n)).

End PyPath.

(* ===================================================================== *)
(** ** Read manifest, as embedded in the pipeline ([GSA_tools.py]) *)
(* ===================================================================== *)

Module Manifest.
Import PyStr Regex PyPath.

(** [(?:^|[_\.-])(?:[RrFf]?1)(?=[_\.-]?\.(?:f(ast)?q)\.gz$)], compiled with
    [re.IGNORECASE]. *)
Definition R1_RE : re :=
  Cat (Alt Bol (Cls "_.-"))
    (Cat (Cat (Opt (Cls "RrFf")) (Chr "1"))
       (Look (Cat (Opt (Cls "_.-"))
                (Cat (Chr ".")
                   (Cat (Cat (Chr "f") (Cat (Opt (lit "ast")) (Chr "q")))
                      (Cat (lit ".gz") Eol)))))).

(** [(?:^|[_\.-])(?:[RrFf]?2)(?=[_\.-]?\.(?:f(ast)?q)\.gz$)], compiled with
    [re.IGNORECASE]. *)
Definition R2_RE : re :=
  Cat (Alt Bol (Cls "_.-"))
    (Cat (Cat (Opt (Cls "RrFf")) (Chr "2"))
       (Look (Cat (Opt (Cls "_.-"))
                (Cat (Chr ".")
                   (Cat (Cat (Chr "f") (Cat (Opt (lit "ast")) (Chr "q")))
                      (Cat (lit ".gz") Eol)))))).

Definition header : str :=
  "biosample_path" ++ [TAB] ++ "fastq_count" ++ [TAB] ++ "status" ++ [TAB]
  ++ "short_read_1" ++ [TAB] ++ "short_read_2" ++ [TAB]
  ++ "long_read_primary" ++ [TAB] ++ "long_read_extra" ++ [LF].

(** The loop [for f in files]: the three buckets (short1, short2,
    long_reads). *)
Definition buckets (files : list Path) : list Path * list Path * list Path :=
  fold_left
    (fun acc f =>
       let '(short1, short2, long_reads) := acc in
       let name := PyPath.name f in
       if search true R1_RE name then (short1 ++ [f], short2, long_reads)
       else if search true R2_RE name then (short1, short2 ++ [f], long_reads)
       else (short1, short2, long_reads ++ [f]))
    files ([], [], []).

Definition nonempty {A} (l : list A) : bool :=
  match l with
  | [] => false
  | _ :: _ => true
  end.

Definition status (short1 short2 long_reads : list Path) : str :=
  let has_short := nonempty short1 && nonempty short2 in
  let has_long := nonempty long_reads in
  if has_short && has_long then "hybrid"
  else if has_short then "short_only"
  else if has_long then "long_only"
  else "unknown".

(** [str(sorted(ps)[0]) if ps else ''] *)
Definition first_sorted (ps : list Path) : str :=
  if nonempty ps then path_str (nth 0 (sorted ps) []) else [].

(** Body of the loop [for biosample in sorted(biosample_dirs)]: the row
    written for one sample directory holding [files]. *)
Definition manifest_row (biosample : Path) (files : list Path) : str :=
  let fastq_count := length files in
  let '(short1, short2, long_reads) := buckets files in
  let sr1 := first_sorted short1 in
  let sr2 := first_sorted short2 in
  let long_primary := first_sorted long_reads in
  let long_extra : str :=
    if (1 <? length long_reads)%nat
    then join ";" (map path_str (skipn 1 (sorted long_reads)))
    else [] in
  path_str biosample ++ [TAB] ++ str_of_nat fastq_count ++ [TAB]
  ++ status short1 short2 long_reads ++ [TAB]
  ++ sr1 ++ [TAB] ++ sr2 ++ [TAB] ++ long_primary ++ [TAB]
  ++ long_extra ++ [LF].

(** [write_read_manifest(input_dir, output_tsv, depth)] over the snapshot
    [tree] of [input_dir]: the text written to [output_tsv], or [None] when
    the function returns before opening it. *)
Definition write_read_manifest (input_dir : Path) (tree : node) (depth : nat)
    : result (option str) :=
  match depth with
  | 0 => Raise (ValueError "Unacceptable pattern")
  | S _ =>
      let biosample_dirs :=
        filter (fun pn => Is_true (is_dir (snd pn)))
               (glob_stars depth input_dir tree) in
      if nonempty biosample_dirs then
        Ok (Some
              (header ++
               concat (map (fun pn =>
                              let biosample := fst pn in
                              let files := glob_names "*.f*q.gz" biosample (snd pn) in
                              manifest_row biosample files)
                           (sorted_on fst biosample_dirs))))
      else Ok None
  end.

End Manifest.

(* ===================================================================== *)
(** ** Read manifest, standalone ([additional_scripts/read_manifest_writer.py]) *)
(* ===================================================================== *)

Module ReadManifestWriter.
Import PyStr Regex PyPath.

Definition R1_RE : re :=
  Cat (Alt Bol (Cls "_.-"))
    (Cat (Cat (Opt (Cls "RrFf")) (Chr "1"))
       (Look (Cat (Opt (Cls "_.-"))
                (Cat (Chr ".")
                   (Cat (Cat (Chr "f") (Cat (Opt (lit "ast")) (Chr "q")))
                      (Cat (lit ".gz") Eol)))))).

Definition R2_RE : re :=
  Cat (Alt Bol (Cls "_.-"))
    (Cat (Cat (Opt (Cls "RrFf")) (Chr "2"))
       (Look (Cat (Opt (Cls "_.-"))
                (Cat (Chr ".")
                   (Cat (Cat (Chr "f") (Cat (Opt (lit "ast")) (Chr "q")))
                      (Cat (lit ".gz") Eol)))))).

Definition nonempty {A} (l : list A) : bool :=
  match l with
  | [] => false
  | _ :: _ => true
  end.

(** Body of the loop over the sample directories of [main]. *)
Definition manifest_row (biosample : Path) (files : list Path) : str :=
  let fastq_count := length files in
  let '(short1, short2, long_reads) :=
    fold_left
      (fun acc f =>
         let '(short1, short2, long_reads) := acc in
         let name := PyPath.name f in
         if search true R1_RE name then (short1 ++ [f], short2, long_reads)
         else if search true R2_RE name then (short1, short2 ++ [f], long_reads)
         else (short1, short2, long_reads ++ [f]))
      files ([], [], []) in
  let has_short := nonempty short1 && nonempty short2 in
  let has_long := nonempty long_reads in
  let status : str :=
    if has_short && has_long then "hybrid"
    else if has_short then "short_only"
    else if has_long then "long_only"
    else "unknown" in
  let sr1 : str :=
    if nonempty short1 then path_str (nth 0 (sorted short1) []) else [] in
  let sr2 : str :=
    if nonempty short2 then path_str (nth 0 (sorted short2) []) else [] in
  let long_primary : str :=
    if nonempty long_reads then path_str (nth 0 (sorted long_reads) [])
    else [] in
  let long_extra : str :=
    if (1 <? length long_reads)%nat
    then join ";" (map path_str (skipn 1 (sorted long_reads)))
    else [] in
  path_str biosample ++ [TAB] ++ str_of_nat fastq_count ++ [TAB]
  ++ status ++ [TAB]
  ++ sr1 ++ [TAB] ++ sr2 ++ [TAB] ++ long_primary ++ [TAB]
  ++ long_extra ++ [LF].

(** [main()] run with [--input input --depth depth] in a process whose
    working directory is [cwd]; [tree] is the snapshot found at [input].
    The result is the text written to the output file. *)
Definition main (cwd : Path) (input : Path) (tree : node) (depth : nat)
    : result str :=
  let input_dir := resolve cwd input in
  if negb (is_dir tree) then
    Raise (SystemExit ("ERROR: input directory does not exist: "
                       ++ path_str input_dir))
  else
    match depth with
    | 0 => Raise (ValueError "Unacceptable pattern")
    | S _ =>
        let biosample_dirs :=
          filter (fun pn => Is_true (is_dir (snd pn)))
                 (glob_stars depth input_dir tree) in
        if negb (nonempty biosample_dirs) then
          Raise (SystemExit ("ERROR: No biosample directories found at depth "
                             ++ str_of_nat depth ++ " under "
                             ++ path_str input_dir))
        else
          Ok ("biosample_path" ++ [TAB] ++ "fastq_count" ++ [TAB] ++ "status"
              ++ [TAB] ++ "short_read_1" ++ [TAB] ++ "short_read_2" ++ [TAB]
              ++ "long_read_primary" ++ [TAB] ++ "long_read_extra" ++ [LF]
              ++ concat (map (fun pn =>
                                let biosample := fst pn in
                                let files :=
                                  glob_names "*.f*q.gz" biosample (snd pn) in
                                manifest_row biosample files)
                             (sorted_on fst biosample_dirs)))
    end.

End ReadManifestWriter.

(* ===================================================================== *)
(** ** BioSample metadata *)
(* ===================================================================== *)

Module Metadata.
Import PyStr.

(** A table row as the scraper reads it: the text of its [th] and of its
    [td]; [None] when [find_element] raises for that element. *)
Definition html_row : Type := option str * option str.

(** What the browser shows for one BioSample: whether [attribute_table]
    appears within the wait, the rows of that table, and the rows selected
    by the second XPath query (the other tables). *)
Record page := {
  has_attribute_table : bool;
  attribute_rows : list html_row;
  extra_rows : list html_row
}.

(** A browser session: [driver.get(url)] for a BioSample accession, which
    may raise. *)
Definition driver := str -> result page.

(** [scrape_biosample_metadata(driver, biosample)]: the definition at the
    end of the module, which is the one bound to the name when it is called.
    [Ok None] is the return of [None] (page not found). *)
Definition scrape_biosample_metadata (drv : driver) (biosample : str)
    : result (option (gmap str str)) :=
  let! pg := drv biosample in
  if negb (has_attribute_table pg) then Ok None
  else
    let record : gmap str str := {[ ("BioSample" : str) := biosample ]} in
    let record :=
      fold_left
        (fun (record : gmap str str) (row : html_row) =>
           match row with
           | (Some th, Some td) =>
               let key := sub_ws false (strip th) in
               let val := strip td in
               <[key := val]> record
           | _ => record
           end)
        (attribute_rows pg) record in
    let record :=
      fold_left
        (fun (record : gmap str str) (row : html_row) =>
           match row with
           | (Some th, Some td) =>
               let key := sub_ws false (strip th) in
               let val := strip td in
               if bool_decide (key <> ("Accession" : str))
               then <[key := val]> record
               else record
           | _ => record
           end)
        (extra_rows pg) record in
    Ok (Some record).

(** [_task(bs)] of [write_biosample_metadata_parallel]: any exception gives
    [None]; a record loses its blank values, and a record that lost its
    ["BioSample"] raises [KeyError] inside the [try], hence [None]. *)
Definition _task (drv : driver) (bs : str) : option (gmap str str) :=
  match scrape_biosample_metadata drv bs with
  | Raise _ => None
  | Ok None => None
  | Ok (Some rec) =>
      if bool_decide (rec = ∅) then Some rec
      else
        let rec : gmap str str :=
          filter (fun kv => strip (snd kv) <> []) rec in
        match rec !! ("BioSample" : str) with
        | Some b => Some (<[("BioSample" : str) := b]> (delete ("BioSample" : str) rec))
        | None => None
        end
  end.

(** The loop over [as_completed(futures)]: [completed] lists the accessions
    in the order in which their tasks finished. *)
Definition collect (drv : driver) (completed : list str) : list (gmap str str) :=
  omap (fun bs =>
          match _task drv bs with
          | Some res => if bool_decide (res = ∅) then None else Some res
          | None => None
          end)
       completed.

(** A [pandas.DataFrame] of strings with a default index. *)
Record DataFrame := {
  columns : list str;
  rows : list (list str)
}.

(** [["BioSample"] + sorted(k for k in all_keys if k != "BioSample")] where
    [all_keys] is the union of the keys of the records. *)
Definition all_keys (records : list (gmap str str)) : list str :=
  let keys : gset str := ⋃ (dom <$> records) in
  ("BioSample" : str) ::
  sorted_strs (filter (fun k => k <> ("BioSample" : str)) (elements keys)).

(** [pd.DataFrame([{k: r.get(k, '') for k in all_keys} for r in records])] *)
Definition frame (records : list (gmap str str)) : DataFrame :=
  let keys := all_keys records in
  {| columns := keys;
     rows := map (fun r => map (fun k => default [] (r !! k)) keys) records |}.

(** Keep the positions of [l] whose label in [labels] is not [name]. *)
Fixpoint drop_at (name : str) (labels : list str) {A} (l : list A) : list A :=
  match labels, l with
  | lab :: labels', x :: l' =>
      if bool_decide (lab = name) then drop_at name labels' l'
      else x :: drop_at name labels' l'
  | _, _ => []
  end.

(** [df.drop(columns=[name])] *)
Definition drop (name : str) (df : DataFrame) : DataFrame :=
  {| columns := drop_at name (columns df) (columns df);
     rows := map (drop_at name (columns df)) (rows df) |}.

(** One field of [csv.writer] with [QUOTE_MINIMAL] and a tab delimiter. *)
Definition csv_field (f : str) : str :=
  if existsb (fun c => bool_decide (c ∈ [TAB; QUOTE; CR; LF])) f
  then QUOTE :: replace_char QUOTE [QUOTE; QUOTE] f ++ [QUOTE]
  else f.

(** One record of [csv.writer]; a record made of one empty field is
    written as two quotes. *)
Definition csv_row (fields : list str) : str :=
  match fields with
  | [[]] => [QUOTE; QUOTE; LF]
  | _ => join [TAB] (map csv_field fields) ++ [LF]
  end.

(** [df.to_csv(path, sep="\t", index=False)] *)
Definition to_csv (df : DataFrame) : str :=
  csv_row (columns df) ++ concat (map csv_row (rows df)).

(** The aggregation at the end of [write_biosample_metadata_parallel]: the
    text written to [output_tsv], or [None] when no record was retrieved. *)
Definition metadata_table (records : list (gmap str str)) : option DataFrame :=
  match records with
  | [] => None
  | _ :: _ =>
      let df := frame records in
      Some (if bool_decide (("Attributes" : str) ∈ columns df)
            then drop "Attributes" df else df)
  end.

Definition metadata_tsv (records : list (gmap str str)) : option str :=
  to_csv <$> metadata_table records.

(** [df[name]]: the cells of a column, [KeyError] when there is none. *)
Fixpoint getitem_row (name : str) (labels : list str) (row : list str) : option str :=
  match labels, row with
  | lab :: labels', x :: row' =>
      if bool_decide (lab = name) then Some x else getitem_row name labels' row'
  | _, _ => None
  end.

Definition getitem (df : DataFrame) (name : str) : result (list str) :=
  if bool_decide (name ∈ columns df)
  then Ok (map (fun row => default [] (getitem_row name (columns df) row)) (rows df))
  else Raise (KeyError name).

(** [get_biosamples_from_runinfo(runinfo_csv)]; [read_csv] is pandas'
    parser applied to the text of the file. *)
Definition get_biosamples_from_runinfo
    (read_csv : str -> result DataFrame) (runinfo_csv : str) : result (list str) :=
  let! df := read_csv runinfo_csv in
  let! col := getitem df "BioSample" in
  let biosamples := sorted_strs (elements (list_to_set col : gset str)) in
  Ok (filter (fun b => b <> []) biosamples).

(** [write_biosample_metadata_parallel(runinfo_csv, output_tsv, ...)]: the
    text written to [output_tsv] ([None]: no file).  [start] is the launch of
    the second browser, which may raise; [completion] gives the order in
    which the submitted tasks finish. *)
Definition write_biosample_metadata_parallel
    (read_csv : str -> result DataFrame) (start : result driver)
    (completion : list str -> list str) (runinfo_csv : str)
    : result (option str) :=
  let! biosamples := get_biosamples_from_runinfo read_csv runinfo_csv in
  let! drv := start in
  let records := collect drv (completion biosamples) in
  Ok (metadata_tsv records).

End Metadata.

(* ===================================================================== *)
(** ** The world the pipeline acts on *)
(* ===================================================================== *)

Module World.
Import PyStr PyPath Metadata.

(** What a path of the file system holds. *)
Inductive entry :=
| EFile (size : N)
| EDir.

(** Observable actions, in the order they happen. *)
Inductive event :=
| EvStartChrome
| EvProcess (genome : str)             (* [process_genome] entered *)
| EvWrite (path : str) (text : str)   (* a text file written or replaced *)
| EvQuit.                              (* [driver.quit()] of the main session *)

Record world := {
  fs : gmap str entry;          (* the paths that exist *)
  calls : list (str * str);     (* [wget] invocations: (url, outpath) *)
  events : list event
}.

(** Stateful computations that may raise. *)
Definition M (A : Type) : Type := world -> world * result A.

Definition ret {A} (a : A) : M A := fun w => (w, Ok a).

Definition lift {A} (r : result A) : M A := fun w => (w, r).

Definition mbind {A B} (c : M A) (k : A -> M B) : M B :=
  fun w =>
    match c w with
    | (w', Ok a) => k a w'
    | (w', Raise e) => (w', Raise e)
    end.

Notation "'do!' x ':=' c 'in' k" := (mbind c (fun x => k))
  (at level 10, x name, c at level 100, k at level 200).

Definition emit (e : event) : M unit :=
  fun w => ({| fs := fs w; calls := calls w; events := events w ++ [e] |}, Ok tt).

Definition update_fs (f : gmap str entry -> gmap str entry) : M unit :=
  fun w => ({| fs := f (fs w); calls := calls w; events := events w |}, Ok tt).

(** [try: c finally: f] *)
Definition try_finally {A} (c : M A) (f : M unit) : M A :=
  fun w =>
    match c w with
    | (w', r) =>
        match f w' with
        | (w'', Ok _) => (w'', r)
        | (w'', Raise e) => (w'', Raise e)
        end
    end.

(** What the search site does for one genome, step by step. *)
Record discovery := {
  d_search : result unit;     (* [execute_cdp_cmd] and [driver.get(url)] *)
  d_no_items : bool;          (* [page_has_no_items(driver)] *)
  d_container : bool;         (* [downloadContainer] appears within the wait *)
  d_result_count : Z;         (* [get_search_result_count(driver)] *)
  d_send_to : result unit;    (* [click_send_to_runinfo(driver)] *)
  d_runinfo : option str      (* [find_latest_runinfo]: the text of the file *)
}.

(** The collaborators of the pipeline. *)
Record env := {
  site : str -> discovery;
  chrome : result unit;                       (* [start_chrome] *)
  metadata_chrome : result driver;            (* the browser of the metadata phase *)
  completion : list str -> list str;          (* order in which metadata tasks finish *)
  read_csv : str -> result DataFrame;         (* [pd.read_csv(f, dtype=str, keep_default_na=False)] *)
  read_csv_usecols : str -> result DataFrame; (* [pd.read_csv] of [download_from_runinfo] *)
  mkdir_p : str -> gmap str entry -> gmap str entry;   (* create a directory and its parents *)
  makedirs : str -> gmap str entry -> result (gmap str entry);
                                              (* [os.makedirs(p, exist_ok=True)] for a non-empty [p] *)
  threads : positive;                         (* [--threads]: the size of the pools, at least 1 *)
  wget : str -> str -> gmap str entry -> gmap str entry * result unit;
                                              (* [subprocess.call(["wget", ...])]: what it leaves
                                                 on disk, and the exception when the program
                                                 cannot be started *)
  snapshot : Path -> gmap str entry -> node   (* the tree found below a directory *)
}.

End World.

(* ===================================================================== *)
(** ** Read downloading *)
(* ===================================================================== *)

Module Download.
Import PyStr PyPath Metadata World.

(** [os.path.exists(p)] *)
Definition path_exists (w : world) (p : str) : bool :=
  bool_decide (is_Some (fs w !! p)).

(** [os.path.dirname(p)] *)
Definition dirname (p : str) : str :=
  let head := rev (lstrip_by (fun c => negb (Ascii.eqb c "/")) (rev p)) in
  if forallb (Ascii.eqb "/") head then head
  else rstrip_by (Ascii.eqb "/") head.

(** [os.makedirs(p, exist_ok=True)]: the empty path cannot be made
    ([FileNotFoundError], a subclass of [OSError]); any other path is made
    with its parents, unless the operating system refuses. *)
Definition os_makedirs (E : env) (p : str) (fs : gmap str entry)
    : result (gmap str entry) :=
  if bool_decide (p = []) then
    Raise (OSError "[Errno 2] No such file or directory: ''")
  else makedirs E p fs.

(** [wget_download(url, outpath)] *)
Definition wget_download (E : env) (url outpath : str) : M unit :=
  fun w =>
    if path_exists w outpath then (w, Ok tt)
    else
      match os_makedirs E (dirname outpath) (fs w) with
      | Raise e => (w, Raise e)
      | Ok fs1 =>
          let '(fs2, r) := wget E url outpath fs1 in
          ({| fs := fs2;
              calls := calls w ++ [(url, outpath)];
              events := events w |}, r)
      end.

(** [row[name]] *)
Definition cell (df : DataFrame) (row : list str) (name : str) : result str :=
  match getitem_row name (columns df) row with
  | Some x => Ok x
  | None => Raise (KeyError name)
  end.

Definition is_url (u : str) : bool :=
  startswith "ftp://" u || startswith "http://" u.

(** The loop [for _, row in df.iterrows()] of [download_from_runinfo]. *)
Fixpoint task_loop (E : env) (df : DataFrame) (species_dir : Path)
    (rows : list (list str)) (tasks : list (str * str)) : M (list (str * str)) :=
  match rows with
  | [] => ret tasks
  | row :: rows' =>
      do! run := lift (cell df row "Run") in
      do! biosample := lift (cell df row "BioSample") in
      do! download_paths := lift (cell df row "Download_path") in
      if bool_decide (biosample = []) || bool_decide (download_paths = [])
      then task_loop E df species_dir rows' tasks
      else
        let urls := filter (fun u => Is_true (is_url u)) (split "|" download_paths) in
        if bool_decide (urls = []) then task_loop E df species_dir rows' tasks
        else
          let biosample_dir := joinpath species_dir biosample in
          do! _ := update_fs (mkdir_p E (path_str biosample_dir)) in
          task_loop E df species_dir rows'
            (tasks ++ map (fun url =>
                             let fname := basename url in
                             let outpath := joinpath biosample_dir fname in
                             (url, path_str outpath)) urls)
  end.

(** One batch of the pool ([starmapstar]): its tasks in order; the first
    exception ends the batch. *)
Fixpoint starmapstar (f : str -> str -> M unit) (batch : list (str * str)) : M unit :=
  match batch with
  | [] => ret tt
  | (url, outpath) :: batch' => do! _ := f url outpath in starmapstar f batch'
  end.

(** [Pool._get_tasks(func, tasks, size)]: the tasks cut into batches of
    [size]; [fuel] bounds the number of batches. *)
Fixpoint get_tasks (fuel size : nat) (tasks : list (str * str))
    : list (list (str * str)) :=
  match fuel, tasks with
  | S fuel', _ :: _ =>
      match size with
      | 0 => []
      | S _ => firstn size tasks :: get_tasks fuel' size (skipn size tasks)
      end
  | _, _ => []
  end.

(** The batch size chosen by [Pool._map_async]:
    [chunksize, extra = divmod(len(tasks), len(pool) * 4)], one more when
    [extra] is not zero. *)
Definition chunksize (n : nat) (threads : positive) : nat :=
  let workers4 := Pos.to_nat threads * 4 in
  if (n mod workers4 =? 0)%nat then n / workers4 else S (n / workers4).

(** Every batch is run, whatever became of the earlier ones; the result is
    the first exception, if any. *)
Fixpoint run_batches (f : str -> str -> M unit) (batches : list (list (str * str)))
    : M unit :=
  match batches with
  | [] => ret tt
  | batch :: batches' =>
      fun w =>
        match starmapstar f batch w with
        | (w1, r1) =>
            match run_batches f batches' w1 with
            | (w2, r2) =>
                (w2, match r1 with
                     | Raise e => Raise e
                     | Ok _ => r2
                     end)
            end
        end
  end.

(** [ThreadPool(threads).starmap(f, tasks)], the batches taken one after
    the other in list order. *)
Definition starmap (threads : positive) (f : str -> str -> M unit)
    (tasks : list (str * str)) : M unit :=
  run_batches f (get_tasks (length tasks) (chunksize (length tasks) threads) tasks).

(** [df.applymap(lambda x: x.strip() ...)] *)
Definition applymap (f : str -> str) (df : DataFrame) : DataFrame :=
  {| columns := columns df; rows := map (map f) (rows df) |}.

(** [download_from_runinfo(runinfo_file, species_dir, threads)] *)
Definition download_from_runinfo (E : env) (runinfo_file : str)
    (species_dir : Path) : M unit :=
  do! df := lift (read_csv_usecols E runinfo_file) in
  let df := applymap strip df in
  do! tasks := task_loop E df species_dir (rows df) [] in
  match tasks with
  | [] => ret tt
  | _ :: _ => starmap (threads E) (wget_download E) tasks
  end.

End Download.

(* ===================================================================== *)
(** ** Per-genome workflow and main loop *)
(* ===================================================================== *)

Module Orchestrator.
Import PyStr PyPath Metadata World.

(** [process_genome(driver, genome, download_dir, threads, dry_run)] *)
Definition process_genome (E : env) (genome : str) (download_dir : Path)
    (dry_run : bool) : M (str * Z * bool) :=
  do! _ := emit (EvProcess genome) in
  let genome_fs := replace_char " " "_" genome in
  let species_dir := joinpath download_dir genome_fs in
  do! _ := update_fs (mkdir_p E (path_str species_dir)) in
  let d := site E genome in
  do! _ := lift (d_search d) in
  if d_no_items d then ret (genome, 0%Z, false)
  else if negb (d_container d) then ret (genome, 0%Z, false)
  else if (d_result_count d =? 0)%Z then ret (genome, 0%Z, false)
  else
    do! _ := lift (d_send_to d) in
    match d_runinfo d with
    | None => ret (genome, 0%Z, false)
    | Some runinfo =>
        let final_csv := path_str (joinpath species_dir (genome_fs ++ "_RunInfo.csv")) in
        let text := RunInfo.truncate_runinfo 22 runinfo in
        do! _ := emit (EvWrite final_csv text) in
        let text := RunInfo.filter_runinfo_by_scientific_name text genome in
        do! _ := emit (EvWrite final_csv text) in
        let n_rows := RunInfo.n_rows text in
        if (n_rows <=? 0)%Z then ret (genome, 0%Z, false)
        else
          let biosample_meta_tsv :=
            path_str (joinpath species_dir (genome_fs ++ "_biosample_metadata.tsv")) in
          do! meta := lift (write_biosample_metadata_parallel
                              (read_csv E) (metadata_chrome E) (completion E) text) in
          do! _ := match meta with
                   | Some tsv => emit (EvWrite biosample_meta_tsv tsv)
                   | None => ret tt
                   end in
          do! _ := if dry_run then ret tt
                   else
                     do! _ := Download.download_from_runinfo E text species_dir in
                     let manifest_path :=
                       path_str (joinpath species_dir (genome_fs ++ "_read_manifest.tsv")) in
                     fun w =>
                       match Manifest.write_read_manifest
                               species_dir (snapshot E species_dir (fs w)) 1 with
                       | Ok (Some tsv) => emit (EvWrite manifest_path tsv) w
                       | Ok None => ret tt w
                       | Raise e => (w, Raise e)
                       end in
          ret (genome, n_rows, true)
    end.

(** The loop [for g in genomes] of [main]. *)
Fixpoint for_genomes (E : env) (genomes : list str) (download_dir : Path)
    (dry_run : bool) : M unit :=
  match genomes with
  | [] => ret tt
  | g :: genomes' =>
      do! result := process_genome E g download_dir dry_run in
      for_genomes E genomes' download_dir dry_run
  end.

(** [genomes = [l.strip() for l in f if l.strip()]] *)
Definition read_genomes (input : str) : list str :=
  filter (fun g => g <> []) (map strip (file_lines input)).

(** [main()], given the text of the input list, the absolute download
    directory and the dry-run flag. *)
Definition main (E : env) (input : str) (download_dir : Path) (dry_run : bool)
    : M unit :=
  do! _ := update_fs (mkdir_p E (path_str download_dir)) in
  do! _ := lift (chrome E) in
  do! _ := emit EvStartChrome in
  let genomes := read_genomes input in
  try_finally (for_genomes E genomes download_dir dry_run) (emit EvQuit).

End Orchestrator.

(* ===================================================================== *)
(** ** Vocabulary of the statements *)
(* ===================================================================== *)

Module Spec.
Import PyStr PyPath Metadata World.

(** A line that ends with its newline, and a last line without one. *)
Definition complete (l : str) : Prop := exists b, l = b ++ [LF] /\ LF ∉ b.
Definition partial (l : str) : Prop := l <> [] /\ LF ∉ l.

(** The shape of what iterating a text stream yields: complete lines, the
    last of which may lack its newline. *)
Inductive lines_wf : list str -> Prop :=
| wf_nil : lines_wf []
| wf_last l : partial l -> lines_wf [l]
| wf_cons l ls : complete l -> lines_wf ls -> lines_wf (l :: ls).

(** What [truncate_runinfo] keeps of a line: its first [ncols] fields,
    joined by commas (the line written is this text and a newline). *)
Definition kept_text (ncols : nat) (line : str) : str :=
  join "," (firstn ncols (split COMMA (strip line))).

(** The two tests of the classifier on a file. *)
Definition is_read1 (f : Path) : bool :=
  Regex.search true Manifest.R1_RE (name f).
Definition is_read2 (f : Path) : bool :=
  Regex.search true Manifest.R2_RE (name f).

(** The three buckets as filters of the file list: read 1 is tested first,
    then read 2, and the rest is long. *)
Definition short1_of (files : list Path) : list Path :=
  filter (fun f => Is_true (is_read1 f)) files.
Definition short2_of (files : list Path) : list Path :=
  filter (fun f => Is_true (negb (is_read1 f) && is_read2 f)) files.
Definition long_of (files : list Path) : list Path :=
  filter (fun f => Is_true (negb (is_read1 f) && negb (is_read2 f))) files.

(** One turn of the loop [for f in files]. *)
Definition bucket_step (acc : list Path * list Path * list Path) (f : Path)
    : list Path * list Path * list Path :=
  let '(short1, short2, long_reads) := acc in
  let name := PyPath.name f in
  if Regex.search true Manifest.R1_RE name then (short1 ++ [f], short2, long_reads)
  else if Regex.search true Manifest.R2_RE name then (short1, short2 ++ [f], long_reads)
  else (short1, short2, long_reads ++ [f]).

(** A record rendered as a table row: one cell per key, empty when the
    record lacks the key. *)
Definition render (keys : list str) (r : gmap str str) : list str :=
  map (fun k => default [] (r !! k)) keys.

(** The destination holds a file of positive size. *)
Definition nonempty_file (w : world) (p : str) : bool :=
  match fs w !! p with
  | Some (EFile size) => (0 <? size)%N
  | _ => false
  end.

End Spec.

(* ===================================================================== *)
(** ** Concrete inputs used in the examples *)
(* ===================================================================== *)

Module Demo.
Import PyStr PyPath Metadata World.

(** A reader for comma-separated tables without quoting, standing for
    [pandas.read_csv] in the examples: blank lines are skipped, the first
    line gives the column names. *)
Definition simple_read_csv (text : str) : result DataFrame :=
  match filter (fun l => l <> []) (map rstrip_nl (file_lines text)) with
  | [] => Raise (ParserError "No columns to parse from file")
  | h :: rs => Ok {| columns := split COMMA h; rows := map (split COMMA) rs |}
  end.

(** The same with [usecols]: the named columns must all be present. *)
Definition simple_read_csv_usecols (usecols : list str) (text : str)
    : result DataFrame :=
  let! df := simple_read_csv text in
  if forallb (fun c => bool_decide (c ∈ columns df)) usecols then
    Ok {| columns := filter (fun c => c ∈ usecols) (columns df);
          rows := map (fun row =>
                         omap (fun c => getitem_row c (columns df) row)
                              (filter (fun c => c ∈ usecols) (columns df)))
                      (rows df) |}
  else Raise (ValueError "Usecols do not match columns").

(** A site that finds one result and delivers [runinfo]. *)
Definition found (runinfo : str) : discovery :=
  {| d_search := Ok tt; d_no_items := false; d_container := true;
     d_result_count := 1; d_send_to := Ok tt; d_runinfo := Some runinfo |}.

(** A site that answers "No items found". *)
Definition no_items : discovery :=
  {| d_search := Ok tt; d_no_items := true; d_container := false;
     d_result_count := 0; d_send_to := Ok tt; d_runinfo := None |}.

(** A site on which the "Send to" dialogue never becomes clickable. *)
Definition send_to_times_out : discovery :=
  {| d_search := Ok tt; d_no_items := false; d_container := true;
     d_result_count := 3;
     d_send_to := Raise (WebDriverException "TimeoutException");
     d_runinfo := None |}.

(** One attribute row, and the accession repeated in the other tables. *)
Definition demo_page (organism : str) : page :=
  {| has_attribute_table := true;
     attribute_rows := [(Some ("Organism" : str), Some organism)];
     extra_rows := [(Some ("Accession" : str), Some ("ignored" : str))] |}.

Definition demo_driver : driver :=
  fun bs => Ok (demo_page (if bool_decide (bs = ("SAMC1" : str))
                           then "E. coli" else "K. pneumoniae")).

(** A page whose other tables hold a row named [BioSample]. *)
Definition page_with_biosample_row : page :=
  {| has_attribute_table := true;
     attribute_rows := [(Some ("Organism" : str), Some ("E. coli" : str))];
     extra_rows := [(Some ("BioSample" : str), Some ("SAMC999999" : str))] |}.

Definition demo_env (site : str -> discovery) : env :=
  {| site := site;
     chrome := Ok tt;
     metadata_chrome := Ok demo_driver;
     completion := fun l => l;
     read_csv := simple_read_csv;
     read_csv_usecols :=
       simple_read_csv_usecols ["Run" : str; "BioSample" : str; "Download_path" : str];
     mkdir_p := fun p fs => <[p := EDir]> fs;
     makedirs := fun p fs => Ok (<[p := EDir]> fs);
     threads := 8%positive;
     wget := fun url outpath fs => (<[outpath := EFile 1000]> fs, Ok tt);
     snapshot := fun p fs => Dir [] |}.

Definition empty_world : world := {| fs := ∅; calls := []; events := [] |}.

(** A world in which one destination exists as an empty file. *)
Definition empty_dest_world : world :=
  {| fs := {[ ("/DLs/SAMC1/a_1.fastq.gz" : str) := EFile 0 ]};
     calls := []; events := [] |}.

(** A line of 23 fields whose 22nd field ends with a space. *)
Definition sample23 : str :=
  "Run,f2,f3,f4,f5,f6,f7,f8,f9,f10,f11,f12,f13,f14,f15,f16,f17,f18,f19,f20,f21,Homo sapiens ,free text".

(** The files of a sample directory that holds a forward mate and a read
    that matches neither pattern. *)
Definition orphan_and_long_dir : list Path :=
  [["/" : str; "DLs" : str; "SAMC1" : str; "sample_R1.fastq.gz" : str];
   ["/" : str; "DLs" : str; "SAMC1" : str; "nanopore.fastq.gz" : str]].

(** A root with four sample directories: a forward mate alone, a forward
    mate next to a read that matches neither pattern, a reverse mate
    alone, and a complete pair next to a file that is no read file. *)
Definition orphan_samples : node :=
  Dir [("SAMC1" : str, Dir [("sample_R1.fastq.gz" : str, File)]);
       ("SAMC2" : str, Dir [("sample_R1.fastq.gz" : str, File);
                            ("nanopore.fastq.gz" : str, File)]);
       ("SAMC3" : str, Dir [("sample_R2.fastq.gz" : str, File)]);
       ("SAMC4" : str, Dir [("sample_R1.fastq.gz" : str, File);
                            ("sample_R2.fastq.gz" : str, File);
                            ("notes.txt" : str, File)])].


(** The sample directory of the end-to-end scenario of the specification. *)
Definition hybrid_sample : node :=
  Dir [("SAMN1" : str,
        Dir [("b.fastq.gz" : str, File); ("a_2.fastq.gz" : str, File);
             ("a_1.fastq.gz" : str, File)])].


Definition rec1 : gmap str str :=
  {[ ("BioSample" : str) := ("SAMC1" : str); ("Organism" : str) := ("E. coli" : str) ]}.
Definition rec2 : gmap str str :=
  {[ ("BioSample" : str) := ("SAMC2" : str); ("Attributes" : str) := ("nested" : str);
     ("Host" : str) := ("Homo sapiens" : str) ]}.

(** The first genome makes the site raise, the second finds nothing. *)
Definition flaky_site (genome : str) : discovery :=
  if bool_decide (genome = ("Bad genome" : str)) then send_to_times_out
  else no_items.

Definition two_genomes : str := "Bad genome" ++ [LF] ++ "Good genome" ++ [LF].

(** A RunInfo file that lost its header line: two data rows of 22 fields. *)
Definition headerless_runinfo : str :=
  "CRR1,f2,f3,f4,f5,f6,f7,f8,f9,f10,f11,f12,f13,f14,f15,f16,f17,f18,f19,f20,f21,Escherichia coli"
  ++ [LF] ++
  "CRR2,g2,g3,g4,g5,g6,g7,g8,g9,g10,g11,g12,g13,g14,g15,g16,g17,g18,g19,g20,g21,Escherichia coli"
  ++ [LF].

Definition headerless_site (genome : str) : discovery :=
  if bool_decide (genome = ("Escherichia coli" : str)) then found headerless_runinfo
  else no_items.

Definition coli_then_other : str := "Escherichia coli" ++ [LF] ++ "Other" ++ [LF].

(** The RunInfo table of the end-to-end scenario of the specification. *)
Definition scenario_runinfo : str :=
  "Run,BioSample,Download_path" ++ [LF]
  ++ "R1,SAMN1,http://x/a_1.fastq.gz|http://x/a_2.fastq.gz" ++ [LF]
  ++ "R2,SAMN1,http://x/b.fastq.gz" ++ [LF].

End Demo.

(* ===================================================================== *)
(** ** Further vocabulary *)
(* ===================================================================== *)

Module Observe.
Import PyStr PyPath Metadata World.

(** The comma-separated fields of a line of a RunInfo file, its newline
    left out. *)
Definition fields (line : str) : list str := split COMMA (rstrip_nl line).

(** The cells of the column [name] of a table, top to bottom. *)
Definition column_values (df : DataFrame) (name : str) : list str :=
  map (fun row => default [] (getitem_row name (columns df) row)) (rows df).

(** The key under which the scraper stores a table row. *)
Definition row_key (row : html_row) : option str :=
  match row with
  | (Some th, Some _) => Some (sub_ws false (strip th))
  | _ => None
  end.

(** The record that [scrape_biosample_metadata] has built after its two
    loops over the rows of a page. *)
Definition scraped_record (pg : page) (biosample : str) : gmap str str :=
  fold_left
    (fun (record : gmap str str) (row : html_row) =>
       match row with
       | (Some th, Some td) =>
           let key := sub_ws false (strip th) in
           let val := strip td in
           if bool_decide (key <> ("Accession" : str))
           then <[key := val]> record
           else record
       | _ => record
       end)
    (extra_rows pg)
    (fold_left
       (fun (record : gmap str str) (row : html_row) =>
          match row with
          | (Some th, Some td) =>
              let key := sub_ws false (strip th) in
              let val := strip td in
              <[key := val]> record
          | _ => record
          end)
       (attribute_rows pg) {[ ("BioSample" : str) := biosample ]}).

(** The genomes for which [process_genome] was entered, in order. *)
Definition processed (w : world) : list str :=
  omap (fun e => match e with EvProcess g => Some g | _ => None end) (events w).

(** The event records a text file written. *)
Definition is_write (e : event) : Prop :=
  match e with
  | EvWrite _ _ => True
  | _ => False
  end.


End Observe.

(* ===================================================================== *)
(** ** Further concrete inputs *)
(* ===================================================================== *)

Module Cases.
Import PyStr PyPath Metadata World.

(** What [truncate_runinfo] keeps of [Demo.sample23] for 22 columns. *)
Definition sample23_kept : str :=
  "Run,f2,f3,f4,f5,f6,f7,f8,f9,f10,f11,f12,f13,f14,f15,f16,f17,f18,f19,f20,f21,Homo sapiens ".

(** A page with a two-word attribute name and a blank value. *)
Definition blank_value_page : page :=
  {| has_attribute_table := true;
     attribute_rows := [(Some ("Sample  name" : str), Some ("K12" : str));
                        (Some ("Host" : str), Some (" " : str));
                        (None, Some ("no header" : str))];
     extra_rows := [(Some ("Accession" : str), Some ("SAMC1" : str));
                    (Some ("Release date" : str), Some ("2024-01-01" : str))] |}.

Definition blank_value_driver : driver := fun _ => Ok blank_value_page.

End Cases.

(* ===================================================================== *)
(** * Properties *)
(* ===================================================================== *)

Module PyStrFacts.
Import PyStr.

Section Strip.
Variable p : ascii -> bool.

Lemma lstrip_by_app (a b : str) :
  lstrip_by p (a ++ b) =
  if forallb p a then lstrip_by p b else lstrip_by p a ++ b.
Proof.
  induction a as [|c a IH]; simpl; [done|].
  destruct (p c); simpl; [exact IH | done].
Qed.

Lemma lstrip_by_suffix (s : str) :
  exists pre, s = pre ++ lstrip_by p s /\ forallb p pre = true.
Proof.
  induction s as [|c s [pre [H1 H2]]]; simpl.
  - by exists [].
  - destruct (p c) eqn:Hc.
    + exists (c :: pre). simpl. rewrite Hc, H2. split; [by f_equal | done].
    + by exists [].
Qed.

Lemma lstrip_by_fixed (s : str) :
  lstrip_by p s = s <-> match s with [] => True | c :: _ => p c = false end.
Proof.
  destruct s as [|c s]; simpl; [done|].
  destruct (p c) eqn:Hc; [|done].
  split; [|done]. intros H.
  destruct (lstrip_by_suffix s) as [pre [H1 _]].
  assert (length s = length (pre ++ lstrip_by p s)) as Hl by (by rewrite <- H1).
  rewrite H in Hl. rewrite length_app in Hl. simpl in Hl. lia.
Qed.

Lemma lstrip_by_idem (s : str) : lstrip_by p (lstrip_by p s) = lstrip_by p s.
Proof.
  induction s as [|c s IH]; simpl; [done|].
  destruct (p c) eqn:Hc; [done|]. simpl. by rewrite Hc.
Qed.

Lemma lstrip_by_prefix (s t : str) :
  lstrip_by p (s ++ t) = s ++ t -> lstrip_by p s = s.
Proof.
  intros H. apply lstrip_by_fixed. apply lstrip_by_fixed in H.
  by destruct s.
Qed.

Lemma rstrip_by_snoc (s : str) (c : ascii) :
  rstrip_by p (s ++ [c]) = if p c then rstrip_by p s else s ++ [c].
Proof.
  unfold rstrip_by. rewrite rev_app_distr. simpl.
  destruct (p c); [done|]. simpl. by rewrite rev_involutive.
Qed.

Lemma rstrip_by_prefix (s : str) : exists post, s = rstrip_by p s ++ post.
Proof.
  unfold rstrip_by. destruct (lstrip_by_suffix (rev s)) as [pre [H _]].
  exists (rev pre). rewrite <- rev_app_distr, <- H. by rewrite rev_involutive.
Qed.

Lemma elem_of_lstrip_by (s : str) (x : ascii) : x ∈ lstrip_by p s -> x ∈ s.
Proof.
  destruct (lstrip_by_suffix s) as [pre [H _]]. intros Hx.
  rewrite H. apply elem_of_app. by right.
Qed.

Lemma elem_of_rstrip_by (s : str) (x : ascii) : x ∈ rstrip_by p s -> x ∈ s.
Proof.
  unfold rstrip_by. rewrite !list_elem_of_In, <- in_rev, <- !list_elem_of_In.
  intros H%elem_of_lstrip_by. by rewrite list_elem_of_In, in_rev, <- list_elem_of_In.
Qed.
End Strip.

Lemma elem_of_strip (s : str) (x : ascii) : x ∈ strip s -> x ∈ s.
Proof. unfold strip. by intros H%elem_of_rstrip_by%elem_of_lstrip_by. Qed.

(** A stripped string starts with no whitespace. *)
Lemma lstrip_strip (s : str) : lstrip_by is_space (strip s) = strip s.
Proof.
  unfold strip.
  destruct (rstrip_by_prefix is_space (lstrip_by is_space s)) as [post H].
  apply lstrip_by_prefix with post. rewrite <- H. apply lstrip_by_idem.
Qed.

Lemma is_space_LF : is_space LF = true.
Proof. reflexivity. Qed.

(** The newline that ends a line is stripped with the other whitespace. *)
Lemma strip_snoc_LF (s : str) : strip (s ++ [LF]) = strip s.
Proof.
  unfold strip. rewrite lstrip_by_app.
  destruct (forallb is_space s) eqn:Hall.
  - simpl. destruct (lstrip_by_suffix is_space s) as [pre [H1 H2]].
    assert (lstrip_by is_space s = []) as ->; [|done].
    clear H1 H2 pre. induction s as [|c s IH]; simpl in *; [done|].
    apply andb_true_iff in Hall as [-> Hs]. by apply IH.
  - by rewrite rstrip_by_snoc, is_space_LF.
Qed.

Section Split.
Variable sep : ascii.

Lemma split_nonempty (s : str) : split sep s <> [].
Proof.
  destruct s as [|c s]; simpl; [done|].
  destruct (Ascii.eqb c sep); [done|]. by destruct (split sep s).
Qed.

Lemma join_split (s : str) : join [sep] (split sep s) = s.
Proof.
  induction s as [|c s IH]; simpl; [done|].
  destruct (Ascii.eqb_spec c sep) as [->|Hne].
  - pose proof (split_nonempty s). simpl.
    destruct (split sep s) as [|f fs] eqn:E; [done|]. simpl in *. by rewrite IH.
  - pose proof (split_nonempty s).
    destruct (split sep s) as [|f fs] eqn:E; [done|].
    destruct fs as [|g fs]; simpl in *; by rewrite <- IH.
Qed.

Lemma split_no_sep (s : str) : Forall (fun f => sep ∉ f) (split sep s).
Proof.
  induction s as [|c s IH]; simpl.
  - constructor; [|done]. apply not_elem_of_nil.
  - destruct (Ascii.eqb_spec c sep) as [->|Hne].
    + constructor; [apply not_elem_of_nil | done].
    + destruct (split sep s) as [|f fs]; simpl.
      * constructor; [|done]. rewrite list_elem_of_singleton. congruence.
      * inversion IH; subst. constructor; [|done].
        rewrite elem_of_cons. intros [?|?]; congruence.
Qed.

Lemma split_field_app (f t : str) :
  sep ∉ f -> split sep (f ++ sep :: t) = f :: split sep t.
Proof.
  induction f as [|c f IH]; simpl; intros Hf.
  - by rewrite Ascii.eqb_refl.
  - rewrite not_elem_of_cons in Hf. destruct Hf as [Hc Hf].
    destruct (Ascii.eqb_spec c sep) as [->|_]; [done|].
    by rewrite IH.
Qed.

Lemma split_field (f : str) : sep ∉ f -> split sep f = [f].
Proof.
  induction f as [|c f IH]; simpl; intros Hf; [done|].
  rewrite not_elem_of_cons in Hf. destruct Hf as [Hc Hf].
  destruct (Ascii.eqb_spec c sep) as [->|_]; [done|].
  by rewrite IH.
Qed.

Lemma split_join (parts : list str) :
  parts <> [] -> Forall (fun f => sep ∉ f) parts ->
  split sep (join [sep] parts) = parts.
Proof.
  induction parts as [|f fs IH]; [done|]. intros _ Hall.
  inversion Hall as [|? ? Hf Hfs]; subst.
  destruct fs as [|g fs]; simpl.
  - by apply split_field.
  - rewrite split_field_app by done. f_equal. by apply IH.
Qed.

Lemma elem_of_split (s f : str) (x : ascii) :
  f ∈ split sep s -> x ∈ f -> x ∈ s.
Proof.
  revert f. induction s as [|c s IH]; simpl; intros f Hf Hx.
  - apply list_elem_of_singleton in Hf. by subst.
  - destruct (Ascii.eqb c sep).
    + apply elem_of_cons in Hf as [->|Hf]; [by apply elem_of_nil in Hx|].
      apply elem_of_cons. right. by apply IH with f.
    + destruct (split sep s) as [|g gs] eqn:E.
      * apply list_elem_of_singleton in Hf. subst f.
        apply list_elem_of_singleton in Hx. subst x. by left.
      * apply elem_of_cons in Hf as [->|Hf].
        -- apply elem_of_cons in Hx as [->|Hx]; [by left|].
           apply elem_of_cons. right. apply IH with g; [by left | done].
        -- apply elem_of_cons. right. apply IH with f; [by right | done].
Qed.
End Split.

Lemma elem_of_join (sep : str) (parts : list str) (x : ascii) :
  x ∈ join sep parts -> x ∈ sep \/ exists f, f ∈ parts /\ x ∈ f.
Proof.
  induction parts as [|f fs IH]; simpl.
  - by intros H%elem_of_nil.
  - destruct fs as [|g fs].
    + intros H. right. exists f. split; [by left | done].
    + rewrite !elem_of_app. intros [H|[H|H]].
      * right. exists f. split; [by left | done].
      * by left.
      * destruct (IH H) as [?|[h [Hh Hx]]]; [by left|].
        right. exists h. split; [by right | done].
Qed.

Lemma join_firstn_prefix (sep : str) (n : nat) (parts : list str) :
  exists post, join sep parts = join sep (firstn n parts) ++ post.
Proof.
  revert n. induction parts as [|f fs IH]; intros n.
  - exists []. by destruct n.
  - destruct n as [|n]; [by eexists|].
    destruct (IH n) as [post Hpost].
    destruct fs as [|g fs].
    + exists []. destruct n; simpl; by rewrite app_nil_r.
    + destruct n as [|n]; [simpl; by eexists|].
      change (join sep (f :: g :: fs)) with (f ++ sep ++ join sep (g :: fs)).
      change (join sep (firstn (S (S n)) (f :: g :: fs)))
        with (f ++ sep ++ join sep (firstn (S n) (g :: fs))).
      exists post. rewrite Hpost. by rewrite <- !app_assoc.
Qed.

(** The first [n] fields, joined again, are a prefix of the string. *)
Lemma join_firstn_split_prefix (sep : ascii) (n : nat) (s : str) :
  exists post, s = join [sep] (firstn n (split sep s)) ++ post.
Proof.
  destruct (join_firstn_prefix [sep] n (split sep s)) as [post H].
  exists post. by rewrite <- H, join_split.
Qed.

End PyStrFacts.

Module TextFacts.
Import PyStr PyStrFacts Spec.

#[local] Hint Constructors lines_wf : core.

Lemma complete_cons (c : ascii) (l : str) : c <> LF -> complete l -> complete (c :: l).
Proof.
  intros Hc [b [-> Hb]]. exists (c :: b). split; [done|].
  rewrite not_elem_of_cons. split; [congruence | done].
Qed.

Lemma partial_cons (c : ascii) (l : str) : c <> LF -> LF ∉ l -> partial (c :: l).
Proof.
  intros Hc Hl. split; [done|]. rewrite not_elem_of_cons. split; [congruence | done].
Qed.

Lemma readlines_wf (s : str) : lines_wf (readlines s).
Proof.
  induction s as [|c s IH]; simpl; [done|].
  destruct (Ascii.eqb_spec c LF) as [->|Hc].
  - apply wf_cons; [|done]. exists []. split; [done | apply not_elem_of_nil].
  - destruct (readlines s) as [|l ls].
    + apply wf_last. apply partial_cons; [done | apply not_elem_of_nil].
    + inversion IH as [|? [_ Hp]|? ? Hcomp Hwf]; subst.
      * apply wf_last. by apply partial_cons.
      * apply wf_cons; [|done]. by apply complete_cons.
Qed.

Lemma concat_readlines (s : str) : concat (readlines s) = s.
Proof.
  induction s as [|c s IH]; simpl; [done|].
  destruct (Ascii.eqb_spec c LF) as [->|Hc]; simpl; [by rewrite IH|].
  destruct (readlines s) as [|l ls]; simpl in *; by rewrite <- IH.
Qed.

Lemma readlines_partial (l : str) : partial l -> readlines l = [l].
Proof.
  intros [Hne Hl]. induction l as [|c l IH]; [done|]. simpl.
  rewrite not_elem_of_cons in Hl. destruct Hl as [Hc Hl].
  destruct (Ascii.eqb_spec c LF) as [->|_]; [done|].
  destruct l as [|d l]; [done|]. by rewrite IH.
Qed.

Lemma readlines_complete_app (b t : str) :
  LF ∉ b -> readlines ((b ++ [LF]) ++ t) = (b ++ [LF]) :: readlines t.
Proof.
  intros Hb. induction b as [|c b IH]; simpl.
  - done.
  - rewrite not_elem_of_cons in Hb. destruct Hb as [Hc Hb].
    destruct (Ascii.eqb_spec c LF) as [->|_]; [done|].
    by rewrite (IH Hb).
Qed.

(** Reading back the concatenation of well-formed lines gives the lines. *)
Lemma readlines_concat (ls : list str) : lines_wf ls -> readlines (concat ls) = ls.
Proof.
  induction 1 as [|l Hl|l ls [b [-> Hb]] Hwf IH]; simpl.
  - done.
  - rewrite app_nil_r. by apply readlines_partial.
  - by rewrite readlines_complete_app, IH.
Qed.

Lemma lines_wf_sublist (ls ks : list str) : sublist ks ls -> lines_wf ls -> lines_wf ks.
Proof.
  intros Hsub Hwf. revert ks Hsub.
  induction Hwf as [|l Hl|l ls Hl Hwf IH]; intros ks Hsub.
  - apply sublist_nil_r in Hsub. by subst.
  - inversion Hsub as [|? ? ? H1|? ? ? H1]; subst;
      apply sublist_nil_r in H1; subst; auto.
  - inversion Hsub as [|? ? ? H1|? ? ? H1]; subst; auto.
Qed.

Lemma lines_wf_map_complete {A} (f : A -> str) (xs : list A) :
  (forall x, x ∈ xs -> complete (f x)) -> lines_wf (map f xs).
Proof.
  induction xs as [|x xs IH]; simpl; intros H; [done|].
  apply wf_cons; [apply H; by left|]. apply IH. intros y Hy. apply H. by right.
Qed.

Lemma universal_newlines_no_CR (s : str) : CR ∉ universal_newlines s.
Proof.
  induction s as [|c s IH]; simpl; [apply not_elem_of_nil|].
  destruct (Ascii.eqb_spec c CR) as [->|Hc].
  - destruct s as [|d s]; [by rewrite list_elem_of_singleton|].
    destruct (Ascii.eqb d LF); [done|].
    rewrite not_elem_of_cons. by split.
  - rewrite not_elem_of_cons. split; [congruence | done].
Qed.

Lemma universal_newlines_id (s : str) : CR ∉ s -> universal_newlines s = s.
Proof.
  induction s as [|c s IH]; simpl; intros H; [done|].
  rewrite not_elem_of_cons in H. destruct H as [Hc Hs].
  destruct (Ascii.eqb_spec c CR) as [->|_]; [done|]. by rewrite IH.
Qed.

Lemma file_lines_wf (content : str) : lines_wf (file_lines content).
Proof. apply readlines_wf. Qed.

Lemma file_lines_no_CR (content l : str) : l ∈ file_lines content -> CR ∉ l.
Proof.
  unfold file_lines. intros Hl Hc.
  apply (universal_newlines_no_CR content).
  rewrite <- (concat_readlines (universal_newlines content)).
  apply list_elem_of_In, in_concat. exists l. by rewrite <- !list_elem_of_In.
Qed.

(** Text written line by line and read back: the lines written. *)
Lemma file_lines_concat (ls : list str) :
  lines_wf ls -> (forall l, l ∈ ls -> CR ∉ l) -> file_lines (concat ls) = ls.
Proof.
  intros Hwf Hcr. unfold file_lines. rewrite universal_newlines_id.
  - by apply readlines_concat.
  - intros H. apply list_elem_of_In, in_concat in H as [l [Hl Hx]].
    apply (Hcr l); by apply list_elem_of_In.
Qed.

(** What a line of a text stream looks like to [strip]. *)
Lemma line_cases (ls : list str) (l : str) :
  lines_wf ls -> l ∈ ls -> LF ∉ l \/ exists b, l = b ++ [LF] /\ LF ∉ b.
Proof.
  induction 1 as [|k [_ Hk]|k ks Hk Hwf IH]; intros Hl.
  - by apply elem_of_nil in Hl.
  - apply list_elem_of_singleton in Hl. subst. by left.
  - apply elem_of_cons in Hl as [->|Hl]; [by right | by apply IH].
Qed.

Lemma strip_line_no_LF (ls : list str) (l : str) :
  lines_wf ls -> l ∈ ls -> LF ∉ strip l.
Proof.
  intros Hwf Hl. destruct (line_cases ls l Hwf Hl) as [H|[b [-> Hb]]].
  - intros Hx. by apply H, elem_of_strip.
  - rewrite strip_snoc_LF. intros Hx. by apply Hb, elem_of_strip.
Qed.

End TextFacts.

Module RunInfoFacts.
Import PyStr PyStrFacts TextFacts RunInfo Spec.

Lemma truncate_line_kept (ncols : nat) (line : str) :
  truncate_line ncols line = kept_text ncols line ++ [LF].
Proof. reflexivity. Qed.

Lemma elem_of_kept_text (ncols : nat) (line : str) (x : ascii) :
  x ∈ kept_text ncols line -> x = COMMA \/ x ∈ strip line.
Proof.
  unfold kept_text. intros [H|[f [Hf Hx]]]%elem_of_join.
  - apply list_elem_of_singleton in H. by left.
  - right. apply elem_of_split with COMMA f; [|done].
    by apply (subseteq_take ncols).
Qed.

Lemma lstrip_kept_text (ncols : nat) (line : str) :
  lstrip_by is_space (kept_text ncols line) = kept_text ncols line.
Proof.
  destruct (join_firstn_split_prefix COMMA ncols (strip line)) as [post H].
  apply lstrip_by_prefix with post. unfold kept_text.
  change ("," : str) with [COMMA]. rewrite <- H. apply lstrip_strip.
Qed.

(** Splitting the kept text gives back the kept fields. *)
Lemma firstn_split_kept_text (ncols : nat) (line : str) :
  join "," (firstn ncols (split COMMA (kept_text ncols line))) = kept_text ncols line.
Proof.
  unfold kept_text. change ("," : str) with [COMMA].
  destruct ncols as [|n]; [done|].
  pose proof (split_nonempty COMMA (strip line)) as Hne.
  pose proof (split_no_sep COMMA (strip line)) as Hall.
  rewrite split_join.
  - by rewrite firstn_firstn, Nat.min_id.
  - by destruct (split COMMA (strip line)).
  - by apply Forall_take.
Qed.

Lemma truncate_line_twice (ncols : nat) (line : str) :
  rstrip_by is_space (kept_text ncols line) = kept_text ncols line ->
  truncate_line ncols (truncate_line ncols line) = truncate_line ncols line.
Proof.
  intros Hr. rewrite (truncate_line_kept ncols line).
  unfold truncate_line at 1. rewrite strip_snoc_LF.
  unfold strip. rewrite lstrip_kept_text, Hr.
  by rewrite firstn_split_kept_text.
Qed.

(** The text written by [truncate_runinfo], read back line by line. *)
Lemma file_lines_truncate (ncols : nat) (content : str) :
  file_lines (truncate_runinfo ncols content)
  = map (truncate_line ncols) (file_lines content).
Proof.
  unfold truncate_runinfo. apply file_lines_concat.
  - apply lines_wf_map_complete. intros l Hl.
    exists (kept_text ncols l). split; [done|].
    intros [H|H]%elem_of_kept_text; [done|].
    by apply (strip_line_no_LF (file_lines content) l (file_lines_wf content)).
  - intros k Hk. apply list_elem_of_In, in_map_iff in Hk as [l [<- Hl]].
    apply list_elem_of_In in Hl.
    rewrite truncate_line_kept, elem_of_app, list_elem_of_singleton.
    intros [[H|H]%elem_of_kept_text|H]; try done.
    by apply (file_lines_no_CR content l Hl), elem_of_strip.
Qed.

End RunInfoFacts.

Import PyStr RunInfo.

(** C5 (as amended): truncating twice gives the same text as truncating
    once, for every file in which every line has at least [ncols] fields and
    the text kept from each line -- its first [ncols] fields joined by
    commas -- does not end with whitespace. *)
Theorem truncate_runinfo_idempotent (ncols : nat) (content : str) :
  (forall line, line ∈ file_lines content ->
     ncols <= length (split COMMA (strip line)) /\
     rstrip_by is_space (Spec.kept_text ncols line)
     = Spec.kept_text ncols line) ->
  truncate_runinfo ncols (truncate_runinfo ncols content)
  = truncate_runinfo ncols content.
Proof.
  intros H. unfold truncate_runinfo at 1.
  rewrite RunInfoFacts.file_lines_truncate. unfold truncate_runinfo.
  f_equal. rewrite map_map. apply map_ext_in. intros l Hl.
  apply RunInfoFacts.truncate_line_twice. by apply H, list_elem_of_In.
Qed.

Lemma truncate_runinfo_idempotent_witness :
  truncate_runinfo 2 (truncate_runinfo 2 ("a,b,c" ++ [LF] ++ "d, e"))
  = truncate_runinfo 2 ("a,b,c" ++ [LF] ++ "d, e").
Proof.
  apply truncate_runinfo_idempotent.
  intros line Hl. vm_compute in Hl.
  apply elem_of_cons in Hl as [->|Hl]; [vm_compute; split; [lia | done]|].
  apply list_elem_of_singleton in Hl as ->. vm_compute. split; [lia | done].
Defined.

(** C5 (as stated) fails: a 23-field line whose 22nd field ends with a
    space is rewritten again by the second pass. *)
Lemma truncate_runinfo_not_idempotent :
  let content := Demo.sample23 ++ [LF] in
  (forall line, line ∈ file_lines content ->
     22 <= length (split COMMA (strip line))) /\
  truncate_runinfo 22 (truncate_runinfo 22 content)
  <> truncate_runinfo 22 content.
Proof.
  split.
  - intros line Hl. vm_compute in Hl.
    apply list_elem_of_singleton in Hl as ->. vm_compute. lia.
  - vm_compute. discriminate.
Qed.

Module FilterFacts.
Import PyStr PyStrFacts TextFacts RunInfo Spec.

Lemma startswith_spec (p s : str) :
  startswith p s = true <-> exists post, s = p ++ post.
Proof.
  revert s. induction p as [|a p IH]; intros s; simpl.
  - split; [by eexists | done].
  - destruct s as [|b s].
    + split; [done | by intros [? ?]].
    + rewrite andb_true_iff, IH, Ascii.eqb_eq. split.
      * intros [-> [post ->]]. by exists post.
      * intros [post [= -> ->]]. split; [done | by exists post].
Qed.

Lemma contains_spec (needle hay : str) :
  contains needle hay = true <-> exists pre post, hay = pre ++ needle ++ post.
Proof.
  induction hay as [|c hay IH]; simpl.
  - rewrite orb_false_r, startswith_spec. split.
    + intros [post H]. by exists [], post.
    + intros [pre [post H]]. destruct pre; [by exists post|done].
  - rewrite orb_true_iff, startswith_spec, IH. split.
    + intros [[post H]|[pre [post H]]].
      * by exists [], post.
      * exists (c :: pre), post. simpl. by f_equal.
    + intros [pre [post H]]. destruct pre as [|d pre].
      * left. by exists post.
      * right. injection H as -> ->. by exists pre, post.
Qed.

Lemma row_matches_spec (genome_lc line : str) :
  Is_true (row_matches genome_lc line) ->
  let cols := split COMMA (rstrip_nl line) in
  22 <= length cols /\
  exists pre post, lower (nth 21 cols []) = pre ++ genome_lc ++ post.
Proof.
  unfold row_matches. cbv zeta. intros H.
  set (cols := split COMMA (rstrip_nl line)) in *.
  destruct (Nat.ltb_spec (length cols) 22) as [Hlt|Hge]; [done|].
  split; [done|]. apply contains_spec. by apply Is_true_true.
Qed.

(** The lines of the text written by the filter. *)
Lemma file_lines_filter (content genome : str) :
  file_lines (filter_runinfo_by_scientific_name content genome)
  = match file_lines content with
    | [] => []
    | header :: rows => header :: filter (row_matches (lower genome)) rows
    end.
Proof.
  unfold filter_runinfo_by_scientific_name.
  pose proof (file_lines_wf content) as Hwf.
  pose proof (file_lines_no_CR content) as Hcr.
  destruct (file_lines content) as [|header rows]; [done|]. simpl hd. simpl tl.
  change (header ++ concat (filter (row_matches (lower genome)) rows))
    with (concat (header :: filter (row_matches (lower genome)) rows)).
  assert (sublist (header :: filter (row_matches (lower genome)) rows) (header :: rows))
    as Hsub by (apply sublist_skip, sublist_filter).
  apply file_lines_concat.
  - by apply lines_wf_sublist with (header :: rows).
  - intros l Hl. apply Hcr. by apply (sublist_subseteq _ _ Hsub).
Qed.

End FilterFacts.

Import PyStr RunInfo.

(** C2: the filter never increases the number of data rows (the rows
    written are a sub-sequence of the rows read), the first line written is
    the header line read, and every data row written has at least 22
    comma-separated fields, the 22nd of which contains the query as a
    substring once both are lowered. *)
Theorem filter_runinfo_conservative (content q : str) :
  let out := filter_runinfo_by_scientific_name content q in
  (n_rows out <= n_rows content)%Z /\
  sublist (tl (file_lines out)) (tl (file_lines content)) /\
  (exists rest, out = hd [] (file_lines content) ++ rest) /\
  hd [] (file_lines out) = hd [] (file_lines content) /\
  forall row, row ∈ tl (file_lines out) ->
    let cols := split COMMA (rstrip_nl row) in
    22 <= length cols /\
    exists pre post, lower (nth 21 cols []) = pre ++ lower q ++ post.
Proof.
  intros out. subst out.
  pose proof (FilterFacts.file_lines_filter content q) as Hlines.
  unfold n_rows. rewrite Hlines.
  split; [|split; [|split; [|split]]].
  - destruct (file_lines content) as [|h rows]; [done|]. simpl.
    pose proof (length_filter (row_matches (lower q)) rows). lia.
  - destruct (file_lines content) as [|h rows]; [done|]. simpl.
    apply sublist_filter.
  - unfold filter_runinfo_by_scientific_name. by eexists.
  - by destruct (file_lines content).
  - intros row Hrow. apply FilterFacts.row_matches_spec.
    destruct (file_lines content) as [|h rows]; simpl in Hrow.
    + by apply elem_of_nil in Hrow.
    + by apply list_elem_of_filter in Hrow as [? ?].
Qed.

Module ManifestFacts.
Import PyStr Regex PyPath Manifest Spec.

Lemma bucket_step_eq (s1 s2 lg : list Path) (f : Path) :
  bucket_step (s1, s2, lg) f
  = if is_read1 f then (s1 ++ [f], s2, lg)
    else if is_read2 f then (s1, s2 ++ [f], lg)
    else (s1, s2, lg ++ [f]).
Proof. reflexivity. Qed.

Lemma buckets_from (files s1 s2 lg : list Path) :
  fold_left bucket_step files (s1, s2, lg)
  = (s1 ++ short1_of files, s2 ++ short2_of files, lg ++ long_of files).
Proof.
  revert s1 s2 lg. induction files as [|f files IH]; intros s1 s2 lg.
  - unfold short1_of, short2_of, long_of. simpl. by rewrite !app_nil_r.
  - cbn [fold_left]. rewrite bucket_step_eq.
    unfold short1_of, short2_of, long_of. rewrite !filter_cons.
    destruct (is_read1 f) eqn:H1; [|destruct (is_read2 f) eqn:H2];
      rewrite IH; unfold short1_of, short2_of, long_of; simpl;
      repeat case_decide; try done; try tauto;
      by rewrite <- ?app_assoc.
Qed.

(** Each file goes to the first of: read 1, read 2, long. *)
Lemma buckets_filter (files : list Path) :
  buckets files = (short1_of files, short2_of files, long_of files).
Proof. unfold buckets. apply (buckets_from files [] [] []). Qed.

(** The two writers compute the same row. *)
Lemma manifest_row_same (biosample : Path) (files : list Path) :
  ReadManifestWriter.manifest_row biosample files = manifest_row biosample files.
Proof. reflexivity. Qed.

(** A bucket holds a file exactly when some file of the list passes its
    test. *)
Lemma nonempty_filter {A} (P : A -> Prop) `{!forall x, Decision (P x)} (l : list A) :
  nonempty (filter P l) = true <-> exists x, x ∈ l /\ P x.
Proof.
  split.
  - destruct (filter P l) as [|x k] eqn:E; [done|]. intros _.
    assert (x ∈ filter P l) as Hx by (rewrite E; by left).
    apply list_elem_of_filter in Hx as [? ?]. by exists x.
  - intros [x [Hx HP]].
    assert (x ∈ filter P l) as Hin by (by apply list_elem_of_filter).
    by destruct (filter P l); [apply elem_of_nil in Hin|].
Qed.

Lemma nonempty_short1 (files : list Path) :
  nonempty (short1_of files) = true <-> exists f, f ∈ files /\ is_read1 f = true.
Proof.
  unfold short1_of. rewrite nonempty_filter.
  split; intros [f [? Hf]]; exists f; split; try done; by apply Is_true_true.
Qed.

Lemma nonempty_short2 (files : list Path) :
  nonempty (short2_of files) = true
  <-> exists f, f ∈ files /\ is_read1 f = false /\ is_read2 f = true.
Proof.
  unfold short2_of. rewrite nonempty_filter.
  split; intros [f [? Hf]]; exists f; split; try done.
  - apply Is_true_true, andb_true_iff in Hf as [Ha Hb].
    by apply negb_true_iff in Ha.
  - destruct Hf as [-> ->]. done.
Qed.

Lemma nonempty_long (files : list Path) :
  nonempty (long_of files) = true
  <-> exists f, f ∈ files /\ is_read1 f = false /\ is_read2 f = false.
Proof.
  unfold long_of. rewrite nonempty_filter.
  split; intros [f [? Hf]]; exists f; split; try done.
  - apply Is_true_true, andb_true_iff in Hf as [Ha Hb].
    apply negb_true_iff in Ha. by apply negb_true_iff in Hb.
  - destruct Hf as [-> ->]. done.
Qed.

(** The row in terms of the three filters. *)
Lemma manifest_row_eq (biosample : Path) (files : list Path) :
  manifest_row biosample files
  = path_str biosample ++ [TAB] ++ str_of_nat (length files) ++ [TAB]
    ++ status (short1_of files) (short2_of files) (long_of files) ++ [TAB]
    ++ first_sorted (short1_of files) ++ [TAB]
    ++ first_sorted (short2_of files) ++ [TAB]
    ++ first_sorted (long_of files) ++ [TAB]
    ++ (if (1 <? length (long_of files))%nat
        then join ";" (map path_str (skipn 1 (sorted (long_of files)))) else [])
    ++ [LF].
Proof. unfold manifest_row. by rewrite buckets_filter. Qed.

(** What [glob("*.f*q.gz")] lists. *)
Lemma elem_of_glob_names (pat : str) (p : Path) (dir : node) (f : Path) :
  f ∈ glob_names pat p dir
  <-> exists name, f = child p name /\ fnmatch pat name = true /\
        exists n entries, dir = Dir entries /\ (name, n) ∈ entries.
Proof.
  destruct dir as [|entries]; cbn [glob_names].
  { split; [intros H; by apply elem_of_nil in H|].
    intros (name & _ & _ & n & entries & H & _). discriminate H. }
  rewrite list_elem_of_fmap. split.
  - intros [[name n] [-> H]]. apply list_elem_of_filter in H as [Hm Hin].
    exists name. split; [done|]. split; [by apply Is_true_true|]. by exists n, entries.
  - intros (name & -> & Hm & n & entries' & Heq & Hin). injection Heq as <-.
    exists (name, n). split; [done|]. apply list_elem_of_filter.
    split; [by apply Is_true_true | done].
Qed.

(** The name of a path that ends with the component [c]. *)
Lemma name_child (p : Path) (c : str) : c <> ("/" : str) -> name (child p c) = c.
Proof.
  intros Hc. unfold name, child. destruct p as [|a [|b p]]; cbn [app].
  - by rewrite bool_decide_eq_false_2.
  - reflexivity.
  - change (a :: b :: p ++ [c]) with ((a :: b :: p) ++ [c]).
    destruct ((a :: b :: p) ++ [c]) as [|x [|y l]] eqn:E.
    + by destruct p.
    + destruct p; discriminate E.
    + rewrite <- E. apply last_last.
Qed.

End ManifestFacts.

Import PyStr Regex PyPath.

(** C1: for every snapshot of a root directory, the manifest holds one row
    for each sample directory, made from the files of that directory whose
    name matches [*.f*q.gz].  Each file goes to the first of three buckets:
    read 1 when its name matches the read-1 pattern, else read 2 when it
    matches the read-2 pattern, else long.  The status is [hybrid] or
    [short_only] only when both the read-1 and the read-2 bucket hold a file,
    and then by the long bucket; otherwise it is [long_only] when the long
    bucket holds a file and [unknown] when it does not.  Hence a directory
    with a forward mate such as [sample_R1.fastq.gz] and no file in the
    read-2 bucket (such as [sample_R2.fastq.gz]) has status [unknown]
    without long reads and [long_only] with them, never [short_only].  The
    standalone writer writes the same row. *)
Theorem orphan_mate_never_short_only (input_dir : Path) (tree : node) (d : nat) :
  let listing (biosample : Path) (dir : node) : list Path :=
    glob_names "*.f*q.gz" biosample dir in
  let status_of (files : list Path) : str :=
    Manifest.status (Spec.short1_of files) (Spec.short2_of files) (Spec.long_of files) in
  let row (biosample : Path) (files : list Path) : str :=
    path_str biosample ++ [TAB] ++ str_of_nat (length files) ++ [TAB]
    ++ status_of files ++ [TAB]
    ++ Manifest.first_sorted (Spec.short1_of files) ++ [TAB]
    ++ Manifest.first_sorted (Spec.short2_of files) ++ [TAB]
    ++ Manifest.first_sorted (Spec.long_of files) ++ [TAB]
    ++ (if (1 <? length (Spec.long_of files))%nat
        then join ";" (map path_str (skipn 1 (sorted (Spec.long_of files)))) else [])
    ++ [LF] in
  let biosample_dirs :=
    filter (fun pn : Path * node => Is_true (is_dir pn.2))
           (glob_stars (S d) input_dir tree) in
  Manifest.write_read_manifest input_dir tree (S d)
  = Ok (if Manifest.nonempty biosample_dirs
        then Some (Manifest.header
                   ++ concat (map (fun pn => row pn.1 (listing pn.1 pn.2))
                                  (sorted_on fst biosample_dirs)))
        else None) /\
  (forall biosample dir f,
     f ∈ listing biosample dir
     <-> exists name, f = child biosample name /\ fnmatch "*.f*q.gz" name = true /\
           exists n entries, dir = Dir entries /\ (name, n) ∈ entries) /\
  (forall biosample files,
     Manifest.buckets files
     = (Spec.short1_of files, Spec.short2_of files, Spec.long_of files) /\
     Manifest.manifest_row biosample files = row biosample files /\
     ReadManifestWriter.manifest_row biosample files = row biosample files) /\
  (forall files,
     let has1 := exists f, f ∈ files /\ Spec.is_read1 f = true in
     let has2 := exists f, f ∈ files /\ Spec.is_read1 f = false /\ Spec.is_read2 f = true in
     let hasL := exists f, f ∈ files /\ Spec.is_read1 f = false /\ Spec.is_read2 f = false in
     (status_of files = ("hybrid" : str) <-> (has1 /\ has2) /\ hasL) /\
     (status_of files = ("short_only" : str) <-> (has1 /\ has2) /\ ~ hasL) /\
     (status_of files = ("long_only" : str) <-> ~ (has1 /\ has2) /\ hasL) /\
     (status_of files = ("unknown" : str) <-> ~ (has1 /\ has2) /\ ~ hasL) /\
     ((forall f, f ∈ files -> Spec.is_read1 f = true \/ Spec.is_read2 f = false) ->
      status_of files
      = (if Manifest.nonempty (Spec.long_of files) then "long_only" else "unknown" : str) /\
      status_of files <> ("short_only" : str))) /\
  (forall biosample,
     fnmatch "*.f*q.gz" "sample_R1.fastq.gz" = true /\
     Spec.is_read1 (child biosample "sample_R1.fastq.gz") = true /\
     Spec.is_read2 (child biosample "sample_R1.fastq.gz") = false /\
     fnmatch "*.f*q.gz" "sample_R2.fastq.gz" = true /\
     Spec.is_read1 (child biosample "sample_R2.fastq.gz") = false /\
     Spec.is_read2 (child biosample "sample_R2.fastq.gz") = true).
Proof.
  intros listing status_of row biosample_dirs.
  split; [|split; [|split; [|split]]].
  - unfold Manifest.write_read_manifest. fold biosample_dirs.
    destruct (Manifest.nonempty biosample_dirs); [|done].
    do 4 f_equal. apply map_ext. intros [biosample dir]. cbn [fst snd].
    apply ManifestFacts.manifest_row_eq.
  - intros biosample dir f. apply ManifestFacts.elem_of_glob_names.
  - intros biosample files. split; [apply ManifestFacts.buckets_filter|].
    split; [|rewrite ManifestFacts.manifest_row_same];
      apply ManifestFacts.manifest_row_eq.
  - intros files has1 has2 hasL.
    pose proof (ManifestFacts.nonempty_short1 files) as H1.
    pose proof (ManifestFacts.nonempty_short2 files) as H2.
    pose proof (ManifestFacts.nonempty_long files) as HL.
    fold has1 in H1. fold has2 in H2. fold hasL in HL.
    subst status_of. cbv beta. unfold Manifest.status.
    split; [|split; [|split; [|split]]].
    5: {
      intros Hno.
      assert (Manifest.nonempty (Spec.short2_of files) = false) as ->.
      { destruct (Manifest.nonempty (Spec.short2_of files)); [|done].
        destruct H2 as [[f (Hf & Ha & Hc)] _]; [done|].
        destruct (Hno f Hf); congruence. }
      rewrite andb_false_r. cbn [andb].
      by destruct (Manifest.nonempty (Spec.long_of files)). }
    all: destruct (Manifest.nonempty (Spec.short1_of files)),
                  (Manifest.nonempty (Spec.short2_of files)),
                  (Manifest.nonempty (Spec.long_of files)); simpl;
      (split; [try discriminate | ]; intuition (try discriminate; try congruence)).
  - intros biosample. unfold Spec.is_read1, Spec.is_read2.
    rewrite !ManifestFacts.name_child by discriminate.
    repeat split; vm_compute; reflexivity.
Qed.

Lemma orphan_mate_never_short_only_witness :
  Manifest.write_read_manifest ["/" : str; "DLs" : str] Demo.orphan_samples 1
  = Ok (Some (Manifest.header
              ++ "/DLs/SAMC1" ++ [TAB] ++ "1" ++ [TAB] ++ "unknown" ++ [TAB]
              ++ "/DLs/SAMC1/sample_R1.fastq.gz" ++ [TAB; TAB; TAB; LF]
              ++ "/DLs/SAMC2" ++ [TAB] ++ "2" ++ [TAB] ++ "long_only" ++ [TAB]
              ++ "/DLs/SAMC2/sample_R1.fastq.gz" ++ [TAB; TAB]
              ++ "/DLs/SAMC2/nanopore.fastq.gz" ++ [TAB; LF]
              ++ "/DLs/SAMC3" ++ [TAB] ++ "1" ++ [TAB] ++ "unknown" ++ [TAB; TAB]
              ++ "/DLs/SAMC3/sample_R2.fastq.gz" ++ [TAB; TAB; LF]
              ++ "/DLs/SAMC4" ++ [TAB] ++ "2" ++ [TAB] ++ "short_only" ++ [TAB]
              ++ "/DLs/SAMC4/sample_R1.fastq.gz" ++ [TAB]
              ++ "/DLs/SAMC4/sample_R2.fastq.gz" ++ [TAB; TAB; LF])).
Proof.
  rewrite (proj1 (orphan_mate_never_short_only ["/" : str; "DLs" : str]
                    Demo.orphan_samples 0)).
  vm_compute. reflexivity.
Defined.




Module OrderFacts.
Import PyStr.

Lemma leb_total (s t : str) : leb s t = true \/ leb t s = true.
Proof.
  revert t. induction s as [|a s IH]; intros [|b t]; simpl; auto.
  rewrite (N.compare_antisym (N_of_ascii a) (N_of_ascii b)).
  destruct (N.compare (N_of_ascii a) (N_of_ascii b)); simpl; auto.
Qed.

Lemma leb_trans (s t u : str) : leb s t = true -> leb t u = true -> leb s u = true.
Proof.
  revert t u. induction s as [|a s IH]; intros [|b t] [|c u]; simpl; try done.
  destruct (N.compare_spec (N_of_ascii a) (N_of_ascii b)) as [Hab|Hab|Hab]; [| |done];
    destruct (N.compare_spec (N_of_ascii b) (N_of_ascii c)) as [Hbc|Hbc|Hbc]; try done;
    destruct (N.compare_spec (N_of_ascii a) (N_of_ascii c)) as [Hac|Hac|Hac];
    try done; try lia.
  apply IH.
Qed.

#[global] Instance le_total : Total le.
Proof. intros s t. apply leb_total. Qed.

#[global] Instance le_trans : Transitive le.
Proof. intros s t u. apply leb_trans. Qed.

Lemma sorted_strs_sorted (l : list str) : StronglySorted le (sorted_strs l).
Proof. apply StronglySorted_merge_sort; apply _. Qed.

Lemma sorted_strs_perm (l : list str) : sorted_strs l ≡ₚ l.
Proof. apply merge_sort_Permutation. Qed.

Lemma StronglySorted_filter {A} (R : relation A) (P : A -> Prop)
    `{!forall x, Decision (P x)} (l : list A) :
  StronglySorted R l -> StronglySorted R (filter P l).
Proof.
  induction 1 as [|x l Hs IH Hall]; [constructor|].
  rewrite filter_cons. case_decide; [|done].
  constructor; [done|]. rewrite Forall_forall in *.
  intros y [_ Hy]%list_elem_of_filter. by apply Hall.
Qed.

End OrderFacts.

Module MetadataFacts.
Import PyStr Metadata OrderFacts Spec.

Lemma drop_at_self (name : str) (labels : list str) :
  drop_at name labels labels = filter (fun k => k <> name) labels.
Proof.
  induction labels as [|lab labels IH]; [done|]. simpl. rewrite filter_cons.
  repeat case_decide; try done; by rewrite IH.
Qed.

Lemma drop_at_map {A} (name : str) (labels : list str) (g : str -> A) :
  drop_at name labels (map g labels) = map g (filter (fun k => k <> name) labels).
Proof.
  induction labels as [|lab labels IH]; [done|]. simpl. rewrite filter_cons.
  repeat case_decide; try done; simpl; by rewrite IH.
Qed.

Lemma filter_ne_id (name : str) (labels : list str) :
  name ∉ labels -> filter (fun k => k <> name) labels = labels.
Proof.
  induction labels as [|lab labels IH]; [done|].
  rewrite not_elem_of_cons. intros [Hne Hnot]. rewrite filter_cons.
  case_decide; [by rewrite IH | congruence].
Qed.

(** The table that is written: the columns of [all_keys] other than
    ["Attributes"], one rendered row per record. *)
Lemma metadata_table_eq (records : list (gmap str str)) :
  records <> [] ->
  let cols := filter (fun k => k <> ("Attributes" : str)) (all_keys records) in
  metadata_table records
  = Some {| columns := cols; rows := map (render cols) records |}.
Proof.
  intros Hne cols. destruct records as [|r records]; [done|].
  unfold metadata_table. f_equal. unfold frame. cbn [columns].
  case_decide as Hin.
  - unfold drop. cbn [columns rows]. f_equal.
    + apply drop_at_self.
    + rewrite map_map. apply map_ext. intros r'. apply drop_at_map.
  - subst cols. by rewrite (filter_ne_id _ _ Hin).
Qed.

Lemma elem_of_all_keys (records : list (gmap str str)) (k : str) :
  k ∈ all_keys records
  <-> k = ("BioSample" : str) \/ exists r, r ∈ records /\ is_Some (r !! k).
Proof.
  unfold all_keys. rewrite elem_of_cons. rewrite sorted_strs_perm.
  rewrite list_elem_of_filter, elem_of_elements, elem_of_union_list.
  split.
  - intros [?|[Hne [X [HX Hk]]]]; [by left|]. right.
    apply list_elem_of_fmap in HX as [r [-> Hr]].
    exists r. split; [done|]. by apply elem_of_dom.
  - intros [?|[r [Hr Hk]]]; [by left|].
    destruct (decide (k = ("BioSample" : str))) as [?|Hne]; [by left|]. right.
    split; [done|]. exists (dom r). split; [by apply list_elem_of_fmap_2|].
    by apply elem_of_dom.
Qed.

Lemma all_keys_tail_sorted (records : list (gmap str str)) :
  exists rest, all_keys records = ("BioSample" : str) :: rest /\
    StronglySorted le rest /\ NoDup (("BioSample" : str) :: rest).
Proof.
  eexists. split; [reflexivity|]. split; [apply sorted_strs_sorted|].
  apply NoDup_cons. split.
  - rewrite sorted_strs_perm, list_elem_of_filter. by intros [? _].
  - rewrite sorted_strs_perm. apply NoDup_filter, NoDup_elements.
Qed.


End MetadataFacts.

Import PyStr Metadata.

(** C4: for a non-empty list of fetched records (each holding its
    ["BioSample"]), the columns of the written table are exactly the keys
    that occur in some record, except ["Attributes"]; ["BioSample"] comes
    first and the others follow in code-point order without repetition;
    every row has one cell per column, the empty string where the record
    lacks the key. *)
Theorem metadata_columns_union (records : list (gmap str str)) :
  records <> [] ->
  (forall r, r ∈ records -> is_Some (r !! ("BioSample" : str))) ->
  exists df rest,
    metadata_table records = Some df /\
    columns df = ("BioSample" : str) :: rest /\
    StronglySorted PyStr.le rest /\
    NoDup (columns df) /\
    (forall k, k ∈ columns df <->
               (exists r, r ∈ records /\ is_Some (r !! k)) /\ k <> ("Attributes" : str)) /\
    rows df = map (fun r => map (fun k => default [] (r !! k)) (columns df)) records.
Proof.
  intros Hne Hbs.
  pose proof (MetadataFacts.metadata_table_eq records Hne) as Heq. cbv zeta in Heq.
  destruct (MetadataFacts.all_keys_tail_sorted records) as (rest & Hkeys & Hsorted & Hnodup).
  eexists. exists (filter (fun k => k <> ("Attributes" : str)) rest).
  split; [exact Heq|]. cbn [columns rows].
  split; [|split; [|split; [|split]]].
  - rewrite Hkeys, filter_cons. by case_decide.
  - by apply OrderFacts.StronglySorted_filter.
  - apply NoDup_filter. by rewrite Hkeys.
  - intros k. rewrite list_elem_of_filter, MetadataFacts.elem_of_all_keys. split.
    + intros [Hk [->|H]]; [|done]. split; [|done].
      destruct records as [|r records]; [done|].
      exists r. split; [by left | apply Hbs; by left].
    + intros [H Hk]. split; [done | by right].
  - reflexivity.
Qed.

Lemma metadata_columns_union_witness :
  exists df rest,
    metadata_table [Demo.rec2; Demo.rec1] = Some df /\
    columns df = ("BioSample" : str) :: rest /\
    StronglySorted PyStr.le rest /\
    NoDup (columns df) /\
    (forall k, k ∈ columns df <->
               (exists r, r ∈ [Demo.rec2; Demo.rec1] /\ is_Some (r !! k)) /\ k <> ("Attributes" : str)) /\
    rows df = map (fun r => map (fun k => default [] (r !! k)) (columns df)) [Demo.rec2; Demo.rec1].
Proof.
  apply metadata_columns_union; [done|].
  intros r Hr. apply elem_of_cons in Hr as [->|Hr]; [by vm_compute; eexists|].
  apply list_elem_of_singleton in Hr as ->. by vm_compute; eexists.
Defined.

Example metadata_table_example :
  metadata_table [Demo.rec2; Demo.rec1]
  = Some {| columns := ["BioSample" : str; "Host" : str; "Organism" : str];
            rows := [["SAMC2" : str; "Homo sapiens" : str; [] ];
                     ["SAMC1" : str; []; "E. coli" : str]] |}.
Proof. vm_compute. reflexivity. Qed.

Module CollectFacts.
Import PyStr Metadata MetadataFacts Spec.

Lemma task_has_biosample (drv : driver) (bs : str) (r : gmap str str) :
  _task drv bs = Some r -> r <> ∅ -> is_Some (r !! ("BioSample" : str)).
Proof.
  unfold _task. destruct (scrape_biosample_metadata drv bs) as [[rec|]|]; try done.
  case_decide; [by intros [= <-]|].
  destruct (filter _ rec !! _) as [b|]; [|done].
  intros [= <-] _. rewrite lookup_insert_eq. by eexists.
Qed.

(** Every collected record holds its ["BioSample"]. *)
Lemma collect_has_biosample (drv : driver) (completed : list str) (r : gmap str str) :
  r ∈ collect drv completed -> is_Some (r !! ("BioSample" : str)).
Proof.
  unfold collect. intros [bs [_ H]]%list_elem_of_omap.
  destruct (_task drv bs) as [res|] eqn:E; [|done].
  case_decide; [done|]. injection H as <-. by apply task_has_biosample with drv bs.
Qed.


End CollectFacts.

Import PyStr Metadata.




(** C8 fails on the code: the guard of the second loop tests the key
    ["Accession"], so a supplementary row whose key is ["BioSample"]
    replaces the accession that was queried. *)
Lemma scrape_overwrites_biosample :
  exists r,
    scrape_biosample_metadata (fun _ => Ok Demo.page_with_biosample_row) "SAMC000001"
    = Ok (Some r) /\
    r !! ("BioSample" : str) = Some ("SAMC999999" : str) /\
    r !! ("BioSample" : str) <> Some ("SAMC000001" : str).
Proof.
  eexists. split; [reflexivity|]. split; [vm_compute; reflexivity|].
  vm_compute. discriminate.
Qed.

Module DownloadFacts.
Import PyStr PyPath Metadata World Download.

Lemma wget_download_exists (E : env) (url outpath : str) (w : world) :
  path_exists w outpath = true -> wget_download E url outpath w = (w, Ok tt).
Proof. intros H. unfold wget_download. by rewrite H. Qed.

(** A missing destination: the directory is made first, and the transport
    is started only when that did not raise. *)
Lemma wget_download_missing (E : env) (url outpath : str) (w : world) :
  path_exists w outpath = false ->
  wget_download E url outpath w
  = match os_makedirs E (dirname outpath) (fs w) with
    | Raise e => (w, Raise e)
    | Ok fs1 =>
        ({| fs := (wget E url outpath fs1).1;
            calls := calls w ++ [(url, outpath)];
            events := events w |}, (wget E url outpath fs1).2)
    end.
Proof.
  intros H. unfold wget_download. rewrite H.
  destruct (os_makedirs E (dirname outpath) (fs w)) as [fs1|e]; [|done].
  by destruct (wget E url outpath fs1).
Qed.

Lemma wget_download_skip_inv (E : env) (url outpath : str) (w : world) :
  wget_download E url outpath w = (w, Ok tt) -> path_exists w outpath = true.
Proof.
  intros H. destruct (path_exists w outpath) eqn:Hex; [done|].
  rewrite (wget_download_missing E url outpath w Hex) in H.
  destruct (os_makedirs E (dirname outpath) (fs w)) as [fs1|e]; [|done].
  injection H as H _. apply (f_equal calls) in H. cbn [calls] in H.
  apply (f_equal length) in H. rewrite length_app in H. simpl in H. lia.
Qed.

Lemma os_makedirs_empty (E : env) (fs : gmap str entry) :
  os_makedirs E [] fs = Raise (OSError "[Errno 2] No such file or directory: ''").
Proof. reflexivity. Qed.

Lemma os_makedirs_nonempty (E : env) (p : str) (fs : gmap str entry) :
  p <> [] -> os_makedirs E p fs = makedirs E p fs.
Proof. intros H. unfold os_makedirs. by rewrite bool_decide_eq_false_2. Qed.

Lemma starmapstar_all_exist (E : env) (batch : list (str * str)) (w : world) :
  (forall t, t ∈ batch -> path_exists w t.2 = true) ->
  starmapstar (wget_download E) batch w = (w, Ok tt).
Proof.
  induction batch as [|[url outpath] batch IH]; intros H; [done|].
  cbn [starmapstar]. unfold mbind.
  rewrite (wget_download_exists E url outpath w) by (apply (H (url, outpath)); by left).
  apply IH. intros t Ht. apply H. by right.
Qed.

Lemma run_batches_all_exist (E : env) (batches : list (list (str * str))) (w : world) :
  (forall batch t, batch ∈ batches -> t ∈ batch -> path_exists w t.2 = true) ->
  run_batches (wget_download E) batches w = (w, Ok tt).
Proof.
  induction batches as [|batch batches IH]; intros H; [done|].
  cbn [run_batches].
  rewrite (starmapstar_all_exist E batch w) by (intros t; apply H; by left).
  rewrite IH; [done|]. intros b t Hb. apply H. by right.
Qed.

(** The batches hold tasks of the list only, ... *)
Lemma elem_of_get_tasks (fuel size : nat) (tasks batch : list (str * str))
    (t : str * str) :
  batch ∈ get_tasks fuel size tasks -> t ∈ batch -> t ∈ tasks.
Proof.
  revert tasks. induction fuel as [|fuel IH]; intros tasks Hb Ht.
  { by apply elem_of_nil in Hb. }
  cbn [get_tasks] in Hb. destruct tasks as [|t0 tasks]; [by apply elem_of_nil in Hb|].
  destruct size as [|size]; [by apply elem_of_nil in Hb|].
  apply elem_of_cons in Hb as [->|Hb].
  - by apply (subseteq_take (S size) (t0 :: tasks)).
  - apply (subseteq_drop (S size) (t0 :: tasks)). by apply IH.
Qed.

(** ... and all of them, in order, when the batches are not empty. *)
Lemma concat_get_tasks (fuel size : nat) (tasks : list (str * str)) :
  length tasks <= fuel -> 0 < size ->
  concat (get_tasks fuel size tasks) = tasks.
Proof.
  revert tasks. induction fuel as [|fuel IH]; intros tasks Hf Hs.
  { destruct tasks; [done | simpl in Hf; lia]. }
  destruct tasks as [|t0 tasks]; [done|]. destruct size as [|size]; [lia|].
  cbn [get_tasks concat]. rewrite IH; [apply take_drop | | lia].
  rewrite length_drop. simpl in *. lia.
Qed.

Lemma chunksize_pos (n : nat) (threads : positive) : 0 < n -> 0 < chunksize n threads.
Proof.
  intros Hn. unfold chunksize. cbv zeta.
  destruct (Nat.eqb_spec (n mod (Pos.to_nat threads * 4)) 0) as [H0|_]; [|lia].
  pose proof (Nat.div_mod_eq n (Pos.to_nat threads * 4)) as Hdm.
  rewrite H0 in Hdm. destruct (n / (Pos.to_nat threads * 4)); [lia | lia].
Qed.

Lemma starmap_all_exist (E : env) (tasks : list (str * str)) (w : world) :
  (forall t, t ∈ tasks -> path_exists w t.2 = true) ->
  starmap (threads E) (wget_download E) tasks w = (w, Ok tt).
Proof.
  intros H. unfold starmap. apply run_batches_all_exist.
  intros batch t Hb Ht. apply H. exact (elem_of_get_tasks _ _ _ _ _ Hb Ht).
Qed.

(** A pool handed one task does what the task does. *)
Lemma starmap_single (th : positive) (f : str -> str -> M unit) (url outpath : str)
    (w : world) :
  starmap th f [(url, outpath)] w = f url outpath w.
Proof.
  unfold starmap, chunksize. cbn [length]. cbv zeta.
  rewrite Nat.mod_small, Nat.div_small by lia. cbn [Nat.eqb get_tasks firstn skipn].
  cbn [run_batches starmapstar]. unfold mbind, ret.
  by destruct (f url outpath w) as [w' [[]|e]].
Qed.

(** The batches of a pool are the tasks, in order. *)
Lemma starmap_batches (th : positive) (tasks : list (str * str)) :
  concat (get_tasks (length tasks) (chunksize (length tasks) th) tasks) = tasks.
Proof.
  destruct tasks as [|t tasks]; [done|].
  apply concat_get_tasks; [done|]. apply chunksize_pos. simpl. lia.
Qed.

Lemma task_loop_calls (E : env) (df : DataFrame) (species_dir : Path)
    (rows : list (list str)) (tasks : list (str * str)) (w : world) :
  calls (task_loop E df species_dir rows tasks w).1 = calls w.
Proof.
  revert tasks w. induction rows as [|row rows IH]; intros tasks w; [done|].
  cbn [task_loop]. unfold mbind, lift.
  destruct (cell df row "Run"); [|done].
  destruct (cell df row "BioSample"); [|done].
  destruct (cell df row "Download_path"); [|done].
  destruct (_ || _); [apply IH|].
  destruct (bool_decide _); [apply IH|]. unfold update_fs. by rewrite IH.
Qed.

End DownloadFacts.

Import PyStr PyPath Metadata World Download.

(** C3 (as amended): a task is skipped -- the world is left as it is, the
    transport is not invoked -- exactly when its destination path exists,
    whatever it holds.  Otherwise the directory of the destination is made
    first: when that raises, as it always does for a destination without a
    directory part, the exception leaves the task and the transport is not
    invoked; when it does not, the transport is invoked once, on the file
    system that holds the directory, and the task ends as the transport
    does.  A pool handed one task does what the
    task does, and a run in which every destination exists issues no
    transport call. *)
Theorem download_skips_existing_destinations (E : env) :
  (forall url outpath w,
     wget_download E url outpath w = (w, Ok tt) <-> path_exists w outpath = true) /\
  (forall url outpath w,
     path_exists w outpath = false ->
     (dirname outpath = [] ->
      wget_download E url outpath w
      = (w, Raise (OSError "[Errno 2] No such file or directory: ''"))) /\
     (forall e, dirname outpath <> [] ->
                makedirs E (dirname outpath) (fs w) = Raise e ->
                wget_download E url outpath w = (w, Raise e)) /\
     (forall fs1, dirname outpath <> [] ->
                  makedirs E (dirname outpath) (fs w) = Ok fs1 ->
                  wget_download E url outpath w
                  = ({| fs := (wget E url outpath fs1).1;
                        calls := calls w ++ [(url, outpath)];
                        events := events w |}, (wget E url outpath fs1).2))) /\
  (forall url outpath w,
     starmap (threads E) (wget_download E) [(url, outpath)] w
     = wget_download E url outpath w) /\
  (forall tasks w,
     (forall t, t ∈ tasks -> path_exists w t.2 = true) ->
     starmap (threads E) (wget_download E) tasks w = (w, Ok tt)) /\
  (forall runinfo_file species_dir df tasks w w1,
     read_csv_usecols E runinfo_file = Ok df ->
     task_loop E (applymap strip df) species_dir (rows (applymap strip df)) [] w
     = (w1, Ok tasks) ->
     (forall t, t ∈ tasks -> path_exists w1 t.2 = true) ->
     download_from_runinfo E runinfo_file species_dir w = (w1, Ok tt) /\
     calls w1 = calls w).
Proof.
  split; [|split; [|split; [|split]]].
  - intros url outpath w. split;
      [apply DownloadFacts.wget_download_skip_inv | apply DownloadFacts.wget_download_exists].
  - intros url outpath w Hex.
    rewrite (DownloadFacts.wget_download_missing E url outpath w Hex).
    split; [|split].
    + intros ->. by rewrite DownloadFacts.os_makedirs_empty.
    + intros e Hne Hmk. by rewrite DownloadFacts.os_makedirs_nonempty, Hmk.
    + intros fs1 Hne Hmk. by rewrite DownloadFacts.os_makedirs_nonempty, Hmk.
  - intros url outpath w. apply DownloadFacts.starmap_single.
  - apply DownloadFacts.starmap_all_exist.
  - intros runinfo_file species_dir df tasks w w1 Hread Hloop Hall.
    pose proof (DownloadFacts.task_loop_calls E (applymap strip df) species_dir
                  (rows (applymap strip df)) [] w) as Hcalls.
    rewrite Hloop in Hcalls. split; [|done].
    unfold download_from_runinfo, mbind, lift. rewrite Hread, Hloop.
    destruct tasks as [|t tasks]; [done|].
    by apply DownloadFacts.starmap_all_exist.
Qed.

(** C3 (as stated) fails: a destination that exists as an empty file is
    skipped too. *)
Lemma download_skips_empty_file :
  let E := Demo.demo_env (fun _ => Demo.no_items) in
  let url : str := "http://x/a_1.fastq.gz" in
  let outpath : str := "/DLs/SAMC1/a_1.fastq.gz" in
  wget_download E url outpath Demo.empty_dest_world = (Demo.empty_dest_world, Ok tt) /\
  Spec.nonempty_file Demo.empty_dest_world outpath = false /\
  ~ (wget_download E url outpath Demo.empty_dest_world = (Demo.empty_dest_world, Ok tt)
     <-> Spec.nonempty_file Demo.empty_dest_world outpath = true).
Proof.
  split; [vm_compute; reflexivity|]. split; [vm_compute; reflexivity|].
  intros [H _]. assert (Spec.nonempty_file Demo.empty_dest_world "/DLs/SAMC1/a_1.fastq.gz" = true) as Hf.
  { apply H. vm_compute. reflexivity. }
  vm_compute in Hf. discriminate.
Qed.

Module OrchestratorFacts.
Import PyStr PyPath Metadata World Orchestrator.

(** The loop over a list cut in two. *)
Lemma for_genomes_app (E : env) (pre post : list str) (dl : Path) (dry : bool)
    (w : world) :
  for_genomes E (pre ++ post) dl dry w
  = match for_genomes E pre dl dry w with
    | (w1, Ok _) => for_genomes E post dl dry w1
    | (w1, Raise e) => (w1, Raise e)
    end.
Proof.
  revert w. induction pre as [|g pre IH]; intros w; [done|].
  cbn [app for_genomes]. unfold mbind.
  destruct (process_genome E g dl dry w) as [w1 [outcome|e]]; [apply IH | done].
Qed.

(** The loop ends with the first exception. *)
Lemma for_genomes_raise (E : env) (pre post : list str) (g : str) (dl : Path)
    (dry : bool) (w w1 w2 : world) (e : exn) :
  for_genomes E pre dl dry w = (w1, Ok tt) ->
  process_genome E g dl dry w1 = (w2, Raise e) ->
  for_genomes E (pre ++ g :: post) dl dry w = (w2, Raise e).
Proof.
  intros Hpre Hg. rewrite for_genomes_app, Hpre.
  cbn [for_genomes]. unfold mbind. by rewrite Hg.
Qed.

(** [process_genome] after the discovery delivered a RunInfo file. *)
Lemma process_genome_found (E : env) (genome : str) (dl : Path) (dry : bool)
    (w : world) (raw : str) :
  d_search (site E genome) = Ok tt ->
  d_no_items (site E genome) = false ->
  d_container (site E genome) = true ->
  d_result_count (site E genome) <> 0%Z ->
  d_send_to (site E genome) = Ok tt ->
  d_runinfo (site E genome) = Some raw ->
  let text := RunInfo.filter_runinfo_by_scientific_name
                (RunInfo.truncate_runinfo 22 raw) genome in
  ((RunInfo.n_rows text <= 0)%Z ->
   (process_genome E genome dl dry w).2 = Ok (genome, 0%Z, false)) /\
  (forall e, (0 < RunInfo.n_rows text)%Z ->
             get_biosamples_from_runinfo (read_csv E) text = Raise e ->
             (process_genome E genome dl dry w).2 = Raise e) /\
  (forall e meta, (0 < RunInfo.n_rows text)%Z ->
             write_biosample_metadata_parallel
               (read_csv E) (metadata_chrome E) (completion E) text = Ok meta ->
             dry = false ->
             read_csv_usecols E text = Raise e ->
             (process_genome E genome dl dry w).2 = Raise e).
Proof.
  intros Hs Hn Hc Hr Hsend Hrun text.
  unfold process_genome, mbind, emit, update_fs, lift. cbn [fst snd].
  rewrite Hs, Hn, Hc. cbn [negb].
  destruct (Z.eqb_spec (d_result_count (site E genome)) 0) as [?|_]; [done|].
  rewrite Hsend, Hrun. fold text. split; [|split].
  - intros Hle. apply Z.leb_le in Hle. by rewrite Hle.
  - intros e Hlt Hread.
    destruct (Z.leb_spec (RunInfo.n_rows text) 0) as [?|_]; [lia|].
    unfold write_biosample_metadata_parallel. by rewrite Hread.
  - intros e meta Hlt Hmeta -> Hread.
    destruct (Z.leb_spec (RunInfo.n_rows text) 0) as [?|_]; [lia|].
    rewrite Hmeta.
    destruct meta as [tsv|]; unfold ret; cbn [fst snd];
      unfold Download.download_from_runinfo, mbind, lift; by rewrite Hread.
Qed.

End OrchestratorFacts.

Import PyStr PyPath Metadata World Orchestrator.

(** C7 (as amended): the entities are processed in order; when the
    processing of one raises, the loop ends there: the browser is closed,
    nothing else happens to the world, the later entities are not processed
    and the exception reaches the top level (exit status 1).  When it
    returns, the loop goes on with the next entity. *)
Theorem main_loop_ends_at_first_exception (E : env) (pre post : list str)
    (g : str) (dl : Path) (dry : bool) (w w1 w2 : world) (e : exn) :
  for_genomes E pre dl dry w = (w1, Ok tt) ->
  process_genome E g dl dry w1 = (w2, Raise e) ->
  let run := try_finally (for_genomes E (pre ++ g :: post) dl dry) (emit EvQuit) w in
  run = ((emit EvQuit w2).1, Raise e) /\
  events run.1 = events w2 ++ [EvQuit] /\
  exit_code run.2 = 1%Z /\
  (forall g' rest w' w'' outcome,
     process_genome E g' dl dry w' = (w'', Ok outcome) ->
     for_genomes E (g' :: rest) dl dry w' = for_genomes E rest dl dry w'').
Proof.
  intros Hpre Hg run. subst run. unfold try_finally.
  rewrite (OrchestratorFacts.for_genomes_raise E pre post g dl dry w w1 w2 e Hpre Hg).
  split; [done|]. split; [done|]. split; [done|].
  intros g' rest w' w'' outcome H. cbn [for_genomes]. unfold mbind. by rewrite H.
Qed.

Lemma main_loop_ends_at_first_exception_witness :
  exists w2,
    events w2 = [EvProcess "Bad genome"] /\
    try_finally (for_genomes (Demo.demo_env Demo.flaky_site)
                   ([] ++ ("Bad genome" : str) :: ["Good genome" : str])
                   ["/" : str; "DLs" : str] false)
                (emit EvQuit) Demo.empty_world
    = ((emit EvQuit w2).1, Raise (WebDriverException "TimeoutException")).
Proof.
  eexists. split; [|
    refine (proj1 (main_loop_ends_at_first_exception (Demo.demo_env Demo.flaky_site) []
             ["Good genome" : str] "Bad genome" ["/" : str; "DLs" : str] false
             Demo.empty_world Demo.empty_world _ _ _ _)); [reflexivity | vm_compute; reflexivity]].
  reflexivity.
Defined.

(** C7 (as stated) fails: of two entities, the first of which raises while
    the RunInfo is requested, only the first is processed, and the run ends
    with the exception. *)
Lemma entity_exception_halts_batch :
  let run := main (Demo.demo_env Demo.flaky_site) Demo.two_genomes ["/" : str; "DLs" : str]
               false Demo.empty_world in
  read_genomes Demo.two_genomes = ["Bad genome" : str; "Good genome" : str] /\
  run.2 = Raise (WebDriverException "TimeoutException") /\
  events run.1 = [EvStartChrome; EvProcess "Bad genome"; EvQuit] /\
  (EvProcess "Good genome" ∉ events (fst run)) /\
  exit_code run.2 = 1%Z.
Proof.
  vm_compute. split; [reflexivity|]. split; [reflexivity|]. split; [reflexivity|].
  split; [|reflexivity].
  intros H. repeat (apply elem_of_cons in H as [H|H]; [discriminate H|]).
  by apply elem_of_nil in H.
Qed.

(** C9 (as amended): once the discovery has delivered a RunInfo file, a
    table left without data rows by the filter makes the entity return
    [(genome, 0, False)] and the loop goes on; a table with data rows on
    which the parser raises makes [process_genome] raise the same
    exception, which ends the loop: the remaining entities are not
    processed.  The reading raises in the metadata phase, when the table is
    parsed or its column [BioSample] is looked up
    ([get_biosamples_from_runinfo]), or, unless the run is dry, in the
    download phase, when the table is parsed for its three columns. *)
Theorem malformed_table_not_recovered (E : env) (genome : str) (rest : list str)
    (dl : Path) (dry : bool) (w : world) (raw : str) :
  d_search (site E genome) = Ok tt ->
  d_no_items (site E genome) = false ->
  d_container (site E genome) = true ->
  d_result_count (site E genome) <> 0%Z ->
  d_send_to (site E genome) = Ok tt ->
  d_runinfo (site E genome) = Some raw ->
  let text := RunInfo.filter_runinfo_by_scientific_name
                (RunInfo.truncate_runinfo 22 raw) genome in
  ((RunInfo.n_rows text <= 0)%Z ->
   (process_genome E genome dl dry w).2 = Ok (genome, 0%Z, false) /\
   for_genomes E (genome :: rest) dl dry w
   = for_genomes E rest dl dry (process_genome E genome dl dry w).1) /\
  (forall e, (0 < RunInfo.n_rows text)%Z ->
             get_biosamples_from_runinfo (read_csv E) text = Raise e ->
             (process_genome E genome dl dry w).2 = Raise e /\
             for_genomes E (genome :: rest) dl dry w
             = ((process_genome E genome dl dry w).1, Raise e)) /\
  (forall e meta, (0 < RunInfo.n_rows text)%Z ->
             write_biosample_metadata_parallel
               (read_csv E) (metadata_chrome E) (completion E) text = Ok meta ->
             dry = false ->
             read_csv_usecols E text = Raise e ->
             (process_genome E genome dl dry w).2 = Raise e /\
             for_genomes E (genome :: rest) dl dry w
             = ((process_genome E genome dl dry w).1, Raise e)).
Proof.
  intros Hs Hn Hc Hr Hsend Hrun text.
  destruct (OrchestratorFacts.process_genome_found E genome dl dry w raw
              Hs Hn Hc Hr Hsend Hrun) as (Hzero & Hraise & Hdl).
  split; [|split].
  - intros Hle. specialize (Hzero Hle). split; [done|].
    cbn [for_genomes]. unfold mbind.
    destruct (process_genome E genome dl dry w) as [w1 r]. simpl in *. by subst r.
  - intros e Hlt Hread. specialize (Hraise e Hlt Hread). split; [done|].
    cbn [for_genomes]. unfold mbind.
    destruct (process_genome E genome dl dry w) as [w1 r]. simpl in *. by subst r.
  - intros e meta Hlt Hmeta Hdry Hread.
    specialize (Hdl e meta Hlt Hmeta Hdry Hread). split; [done|].
    cbn [for_genomes]. unfold mbind.
    destruct (process_genome E genome dl dry w) as [w1 r]. simpl in *. by subst r.
Qed.

Lemma malformed_table_not_recovered_witness :
  (process_genome (Demo.demo_env Demo.headerless_site) "Escherichia coli"
     ["/" : str; "DLs" : str] false Demo.empty_world).2
  = Raise (KeyError "BioSample").
Proof.
  refine (proj1 (proj1 (proj2 (malformed_table_not_recovered (Demo.demo_env Demo.headerless_site)
            "Escherichia coli" ["Other" : str] ["/" : str; "DLs" : str] false
            Demo.empty_world Demo.headerless_runinfo _ _ _ _ _ _)) (KeyError "BioSample") _ _));
    try reflexivity.
  vm_compute. discriminate.
Defined.

(** C9 (as stated) fails: a RunInfo file without its header line raises
    [KeyError] in the metadata phase; the entity is not skipped, the run
    stops and the next entity is never processed. *)
Lemma missing_header_aborts_run :
  let run := main (Demo.demo_env Demo.headerless_site) Demo.coli_then_other
               ["/" : str; "DLs" : str] false Demo.empty_world in
  read_genomes Demo.coli_then_other = ["Escherichia coli" : str; "Other" : str] /\
  run.2 = Raise (KeyError "BioSample") /\
  (EvProcess "Other" ∉ events (fst run)) /\
  last (events run.1) = Some EvQuit /\
  exit_code run.2 = 1%Z.
Proof.
  vm_compute. split; [reflexivity|]. split; [reflexivity|]. split; [|split; reflexivity].
  intros H. repeat (apply elem_of_cons in H as [H|H]; [discriminate H|]).
  by apply elem_of_nil in H.
Qed.

(* ===================================================================== *)
(** ** Scenarios of the specification *)
(* ===================================================================== *)

(** An orphan forward mate next to a read that matches neither pattern:
    [long_only]. *)
Example orphan_with_long_read :
  Manifest.buckets Demo.orphan_and_long_dir
  = ([["/" : str; "DLs" : str; "SAMC1" : str; "sample_R1.fastq.gz" : str]], [],
     [["/" : str; "DLs" : str; "SAMC1" : str; "nanopore.fastq.gz" : str]]) /\
  Manifest.manifest_row ["/" : str; "DLs" : str; "SAMC1" : str] Demo.orphan_and_long_dir
  = "/DLs/SAMC1" ++ [TAB] ++ "2" ++ [TAB] ++ "long_only" ++ [TAB]
    ++ "/DLs/SAMC1/sample_R1.fastq.gz" ++ [TAB] ++ [TAB]
    ++ "/DLs/SAMC1/nanopore.fastq.gz" ++ [TAB] ++ [LF].
Proof. split; vm_compute; reflexivity. Qed.

(** The manifest of the end-to-end scenario: three files, a pair and a
    long read. *)
Example scenario_manifest :
  Manifest.write_read_manifest ["/" : str; "DLs" : str; "E_coli" : str]
    Demo.hybrid_sample 1
  = Ok (Some (Manifest.header
              ++ "/DLs/E_coli/SAMN1" ++ [TAB] ++ "3" ++ [TAB] ++ "hybrid" ++ [TAB]
              ++ "/DLs/E_coli/SAMN1/a_1.fastq.gz" ++ [TAB]
              ++ "/DLs/E_coli/SAMN1/a_2.fastq.gz" ++ [TAB]
              ++ "/DLs/E_coli/SAMN1/b.fastq.gz" ++ [TAB] ++ [LF])).
Proof. vm_compute. reflexivity. Qed.

(** Downloading the scenario twice: three transport calls in the first
    run, none in the second. *)
Example scenario_download_twice :
  let E := Demo.demo_env (fun _ => Demo.no_items) in
  let dir : Path := ["/" : str; "DLs" : str; "E_coli" : str] in
  let w1 := fst (download_from_runinfo E Demo.scenario_runinfo dir Demo.empty_world) in
  let w2 := fst (download_from_runinfo E Demo.scenario_runinfo dir w1) in
  calls w1
  = [("http://x/a_1.fastq.gz" : str, "/DLs/E_coli/SAMN1/a_1.fastq.gz" : str);
     ("http://x/a_2.fastq.gz" : str, "/DLs/E_coli/SAMN1/a_2.fastq.gz" : str);
     ("http://x/b.fastq.gz" : str, "/DLs/E_coli/SAMN1/b.fastq.gz" : str)] /\
  calls w2 = calls w1.
Proof. vm_compute. split; reflexivity. Qed.

(** A task whose destination has no directory part raises before the
    transport is started.  With five tasks and one worker the batches hold
    two tasks: the failure of the first task ends its batch, the other
    batches are run, and the pool raises at the end. *)
Example scenario_failing_task :
  let E := Demo.demo_env (fun _ => Demo.no_items) in
  let run :=
    starmap 1 (wget_download E)
      [("http://x/a.fastq.gz" : str, "a.fastq.gz" : str);
       ("http://x/b.fastq.gz" : str, "/DLs/S/b.fastq.gz" : str);
       ("http://x/c.fastq.gz" : str, "/DLs/S/c.fastq.gz" : str);
       ("http://x/d.fastq.gz" : str, "/DLs/S/d.fastq.gz" : str);
       ("http://x/e.fastq.gz" : str, "/DLs/S/e.fastq.gz" : str)]
      Demo.empty_world in
  wget_download E "http://x/a.fastq.gz" "a.fastq.gz" Demo.empty_world
  = (Demo.empty_world, Raise (OSError "[Errno 2] No such file or directory: ''")) /\
  run.2 = Raise (OSError "[Errno 2] No such file or directory: ''") /\
  calls run.1
  = [("http://x/c.fastq.gz" : str, "/DLs/S/c.fastq.gz" : str);
     ("http://x/d.fastq.gz" : str, "/DLs/S/d.fastq.gz" : str);
     ("http://x/e.fastq.gz" : str, "/DLs/S/e.fastq.gz" : str)].
Proof. vm_compute. repeat split. Qed.

(* ===================================================================== *)
(** * Further properties *)
(* ===================================================================== *)

(** ** RunInfo table *)

Module RunInfoMore.
Import PyStr PyStrFacts TextFacts RunInfoFacts RunInfo Spec Observe.

Lemma rstrip_by_none (p : ascii -> bool) (s : str) :
  (forall c, c ∈ s -> p c = false) -> rstrip_by p s = s.
Proof.
  intros H. unfold rstrip_by.
  assert (lstrip_by p (rev s) = rev s) as ->; [|apply rev_involutive].
  apply lstrip_by_fixed. destruct (rev s) as [|c r] eqn:E; [done|].
  apply H. apply list_elem_of_In, in_rev. rewrite E. by left.
Qed.

Lemma rstrip_nl_line (k : str) : LF ∉ k -> rstrip_nl (k ++ [LF]) = k.
Proof.
  intros Hk. unfold rstrip_nl. rewrite rstrip_by_snoc. simpl.
  apply rstrip_by_none. intros c Hc.
  destruct (Ascii.eqb_spec LF c) as [<-|]; [done | done].
Qed.

Lemma split_kept_text (ncols : nat) (line : str) :
  1 <= ncols ->
  split COMMA (kept_text ncols line) = firstn ncols (split COMMA (strip line)).
Proof.
  intros Hn. unfold kept_text. change ("," : str) with [COMMA].
  pose proof (split_nonempty COMMA (strip line)) as Hne.
  apply split_join.
  - destruct ncols; [lia|]. by destruct (split COMMA (strip line)).
  - apply Forall_take, split_no_sep.
Qed.

Lemma kept_text_no_LF (content line : str) (ncols : nat) :
  line ∈ file_lines content -> LF ∉ kept_text ncols line.
Proof.
  intros Hl [H|H]%elem_of_kept_text; [done|].
  by apply (strip_line_no_LF (file_lines content) line (file_lines_wf content)).
Qed.

(** The fields of a line written by [truncate_runinfo]. *)
Lemma fields_truncate_line (content line : str) (ncols : nat) :
  1 <= ncols -> line ∈ file_lines content ->
  fields (truncate_line ncols line) = firstn ncols (split COMMA (strip line)).
Proof.
  intros Hn Hl. unfold fields. rewrite truncate_line_kept.
  rewrite rstrip_nl_line by (by apply kept_text_no_LF with content).
  by apply split_kept_text.
Qed.

Lemma Forall2_map_r {A B} (P : A -> B -> Prop) (f : A -> B) (xs : list A) :
  (forall x, x ∈ xs -> P x (f x)) -> Forall2 P xs (map f xs).
Proof.
  induction xs as [|x xs IH]; intros H; simpl; constructor.
  - apply H. by left.
  - apply IH. intros y Hy. apply H. by right.
Qed.

Lemma filter_twice {A} (P : A -> Prop) `{!forall x, Decision (P x)} (l : list A) :
  filter P (filter P l) = filter P l.
Proof.
  induction l as [|x l IH]; [done|]. rewrite filter_cons.
  case_decide; [|done]. rewrite filter_cons. case_decide; [|done]. by rewrite IH.
Qed.

End RunInfoMore.

Import PyStr RunInfo Observe.

(** X1: [truncate_runinfo] writes one line per line read; each ends with a
    newline and holds the first [ncols] fields of the stripped line read,
    hence [min ncols k] fields when that line had [k] (for [ncols >= 1]). *)
Theorem truncate_runinfo_fields (ncols : nat) (content : str) :
  1 <= ncols ->
  Forall2 (fun line line' =>
             (exists kept, line' = kept ++ [LF]) /\
             fields line' = firstn ncols (split COMMA (strip line)) /\
             length (fields line')
             = Nat.min ncols (length (split COMMA (strip line))))
          (file_lines content)
          (file_lines (truncate_runinfo ncols content)).
Proof.
  intros Hn. rewrite RunInfoFacts.file_lines_truncate.
  apply RunInfoMore.Forall2_map_r. intros line Hl.
  rewrite (RunInfoMore.fields_truncate_line content line ncols Hn Hl).
  split; [by eexists|]. split; [done|]. apply length_take.
Qed.

Lemma truncate_runinfo_fields_witness :
  Forall2 (fun line line' =>
             (exists kept, line' = kept ++ [LF]) /\
             fields line' = firstn 2 (split COMMA (strip line)) /\
             length (fields line') = Nat.min 2 (length (split COMMA (strip line))))
          (file_lines ("a,b,c" ++ [LF] ++ "d"))
          (file_lines (truncate_runinfo 2 ("a,b,c" ++ [LF] ++ "d"))).
Proof. apply truncate_runinfo_fields. lia. Defined.

(** X2: [truncate_runinfo] keeps the number of lines, so the row count of
    the file is the same before and after. *)
Theorem truncate_runinfo_n_rows (ncols : nat) (content : str) :
  n_rows (truncate_runinfo ncols content) = n_rows content.
Proof.
  unfold n_rows. by rewrite RunInfoFacts.file_lines_truncate, length_map.
Qed.

(** X3: filtering twice by the same name gives what filtering once gives. *)
Theorem filter_runinfo_idempotent (content q : str) :
  filter_runinfo_by_scientific_name (filter_runinfo_by_scientific_name content q) q
  = filter_runinfo_by_scientific_name content q.
Proof.
  unfold filter_runinfo_by_scientific_name at 1.
  rewrite FilterFacts.file_lines_filter.
  unfold filter_runinfo_by_scientific_name.
  destruct (file_lines content) as [|header rows]; [done|].
  cbn [hd tl]. by rewrite RunInfoMore.filter_twice.
Qed.

(** X4: the row count computed after filtering is the number of lines after
    the first that pass the test of the filter; an empty file stays empty and
    counts -1. *)
Theorem filter_runinfo_n_rows (content q : str) :
  n_rows (filter_runinfo_by_scientific_name content q)
  = match file_lines content with
    | [] => (-1)%Z
    | _ :: rows => Z.of_nat (length (filter (row_matches (lower q)) rows))
    end.
Proof.
  unfold n_rows. rewrite FilterFacts.file_lines_filter.
  destruct (file_lines content) as [|header rows]; [done|].
  cbn [length]. lia.
Qed.

(** X5: after truncation to 22 columns, every data row that the filter
    keeps has exactly 22 fields. *)
Theorem truncate_then_filter_22_fields (content q : str) (row : str) :
  row ∈ tl (file_lines (filter_runinfo_by_scientific_name
                          (truncate_runinfo 22 content) q)) ->
  length (fields row) = 22.
Proof.
  rewrite FilterFacts.file_lines_filter, RunInfoFacts.file_lines_truncate.
  destruct (file_lines content) as [|l0 ls] eqn:E; [by intros H%elem_of_nil|].
  cbn [map tl]. intros [Hm Hin]%list_elem_of_filter.
  apply FilterFacts.row_matches_spec in Hm as [Hge _].
  apply list_elem_of_In, in_map_iff in Hin as [l [<- Hl]].
  apply list_elem_of_In in Hl.
  assert (l ∈ file_lines content) as Hl' by (rewrite E; by right).
  fold (fields (truncate_line 22 l)) in Hge.
  rewrite (RunInfoMore.fields_truncate_line content l 22) in * by (lia || done).
  rewrite length_take in *. lia.
Qed.

Lemma truncate_then_filter_22_fields_witness :
  length (fields (Cases.sample23_kept ++ [LF])) = 22.
Proof.
  apply (truncate_then_filter_22_fields
           ("h" ++ [LF] ++ Demo.sample23 ++ [LF]) "homo sapiens").
  vm_compute. by left.
Defined.


(** ** BioSample metadata *)

Module MetadataMore.
Import PyStr Metadata OrderFacts MetadataFacts Spec Observe.

Lemma fold_left_invariant {A B} (P : A -> Prop) (f : A -> B -> A)
    (l : list B) (a : A) :
  P a -> (forall a x, x ∈ l -> P a -> P (f a x)) -> P (fold_left f l a).
Proof.
  revert a. induction l as [|x l IH]; intros a Ha Hf; [done|].
  cbn [fold_left]. apply IH.
  - apply Hf; [by left | done].
  - intros b y Hy. apply Hf. by right.
Qed.

Lemma sub_ws_no_space (in_run : bool) (s : str) (c : ascii) :
  c ∈ sub_ws in_run s -> is_space c = false.
Proof.
  revert in_run. induction s as [|d s IH]; intros in_run; simpl.
  - by intros H%elem_of_nil.
  - destruct (is_space d) eqn:Hd.
    + destruct in_run; [apply IH|].
      intros [->|H]%elem_of_cons; [done | by apply IH in H].
    + intros [->|H]%elem_of_cons; [done | by apply IH in H].
Qed.

Lemma scrape_found (drv : driver) (bs : str) (pg : page) :
  drv bs = Ok pg -> has_attribute_table pg = true ->
  scrape_biosample_metadata drv bs = Ok (Some (scraped_record pg bs)).
Proof. intros H1 H2. unfold scrape_biosample_metadata. by rewrite H1; simpl; rewrite H2. Qed.

Lemma scrape_inv (drv : driver) (bs : str) (r : gmap str str) :
  scrape_biosample_metadata drv bs = Ok (Some r) ->
  exists pg, drv bs = Ok pg /\ has_attribute_table pg = true /\ r = scraped_record pg bs.
Proof.
  unfold scrape_biosample_metadata.
  destruct (drv bs) as [pg|e]; [|done]. simpl.
  destruct (has_attribute_table pg) eqn:E; [|done]. simpl.
  intros [= <-]. by exists pg.
Qed.

End MetadataMore.

Import PyStr Metadata Observe.

(** X6: when the table has a column [BioSample],
    [get_biosamples_from_runinfo] returns its distinct non-empty cells in
    increasing order; when it has none, [KeyError] is raised. *)
Theorem get_biosamples_sorted_distinct (read_csv : str -> result DataFrame)
    (runinfo_csv : str) (df : DataFrame) :
  read_csv runinfo_csv = Ok df ->
  (("BioSample" : str) ∈ columns df ->
   exists l, get_biosamples_from_runinfo read_csv runinfo_csv = Ok l /\
             StronglySorted PyStr.le l /\ NoDup l /\
             forall b, b ∈ l <-> b <> [] /\ b ∈ column_values df "BioSample") /\
  (("BioSample" : str) ∉ columns df ->
   get_biosamples_from_runinfo read_csv runinfo_csv = Raise (KeyError "BioSample")).
Proof.
  intros Hread. unfold get_biosamples_from_runinfo, getitem. rewrite Hread. simpl.
  split; intros Hcol.
  - rewrite bool_decide_eq_true_2 by done. simpl. eexists. split; [reflexivity|].
    split; [|split].
    + apply OrderFacts.StronglySorted_filter, OrderFacts.sorted_strs_sorted.
    + apply NoDup_filter. rewrite OrderFacts.sorted_strs_perm. apply NoDup_elements.
    + intros b. rewrite list_elem_of_filter, OrderFacts.sorted_strs_perm.
      by rewrite elem_of_elements, elem_of_list_to_set.
  - by rewrite bool_decide_eq_false_2.
Qed.

Lemma get_biosamples_sorted_distinct_witness :
  exists l, get_biosamples_from_runinfo Demo.simple_read_csv Demo.scenario_runinfo = Ok l /\
            StronglySorted PyStr.le l /\ NoDup l.
Proof.
  destruct (get_biosamples_sorted_distinct Demo.simple_read_csv Demo.scenario_runinfo
              {| columns := ["Run" : str; "BioSample" : str; "Download_path" : str];
                 rows := [["R1" : str; "SAMN1" : str;
                           "http://x/a_1.fastq.gz|http://x/a_2.fastq.gz" : str];
                          ["R2" : str; "SAMN1" : str; "http://x/b.fastq.gz" : str]] |})
    as [H _]; [vm_compute; reflexivity|].
  destruct H as (l & Hl & Hs & Hn & _); [cbn [columns]; right; left|].
  exists l. exact (conj Hl (conj Hs Hn)).
Defined.

(** X7: no key of a scraped record contains a whitespace character. *)
Theorem scrape_keys_without_whitespace (drv : driver) (bs : str) (r : gmap str str)
    (k : str) (c : ascii) :
  scrape_biosample_metadata drv bs = Ok (Some r) ->
  is_Some (r !! k) -> c ∈ k -> is_space c = false.
Proof.
  intros (pg & _ & _ & ->)%MetadataMore.scrape_inv. revert k c.
  unfold scraped_record.
  apply (MetadataMore.fold_left_invariant
           (fun r : gmap str str =>
              forall k c, is_Some (r !! k) -> c ∈ k -> is_space c = false)).
  - apply (MetadataMore.fold_left_invariant
           (fun r : gmap str str =>
              forall k c, is_Some (r !! k) -> c ∈ k -> is_space c = false)).
    + intros k c [v Hv]. apply lookup_singleton_Some in Hv as [<- _].
      intros Hc. repeat (apply elem_of_cons in Hc as [->|Hc]; [reflexivity|]).
      by apply elem_of_nil in Hc.
    + intros a [[th|] [td|]] _ Ha; try done. cbv zeta. intros k c Hk Hc.
      apply lookup_insert_is_Some in Hk as [<-|[_ Hk]]; [|by apply (Ha k)].
      by apply MetadataMore.sub_ws_no_space in Hc.
  - intros a [[th|] [td|]] _ Ha; try done. cbv zeta.
    case_bool_decide; [|done]. intros k c Hk Hc.
    apply lookup_insert_is_Some in Hk as [<-|[_ Hk]]; [|by apply (Ha k)].
    by apply MetadataMore.sub_ws_no_space in Hc.
Qed.

Lemma scrape_keys_without_whitespace_witness :
  is_space "_" = false.
Proof.
  apply (scrape_keys_without_whitespace Cases.blank_value_driver "SAMC1"
           (scraped_record Cases.blank_value_page "SAMC1") "Sample_name" "_").
  - by apply MetadataMore.scrape_found.
  - vm_compute. by eexists.
  - do 6 right. by left.
Defined.

(** X8: when no row of the page is stored under the key [BioSample], the
    scraped record maps [BioSample] to the accession that was queried. *)
Theorem scrape_keeps_queried_accession (drv : driver) (bs : str) (pg : page) :
  drv bs = Ok pg ->
  has_attribute_table pg = true ->
  (forall row, row ∈ attribute_rows pg ++ extra_rows pg ->
               row_key row <> Some ("BioSample" : str)) ->
  exists r, scrape_biosample_metadata drv bs = Ok (Some r) /\
            r !! ("BioSample" : str) = Some bs.
Proof.
  intros Hdrv Htab Hrows. eexists. split; [by apply MetadataMore.scrape_found|].
  unfold scraped_record.
  apply (MetadataMore.fold_left_invariant
           (fun r : gmap str str => r !! ("BioSample" : str) = Some bs)).
  - apply (MetadataMore.fold_left_invariant
             (fun r : gmap str str => r !! ("BioSample" : str) = Some bs)).
    + apply lookup_singleton_eq.
    + intros a [[th|] [td|]] Hin Ha; try done. cbv zeta.
      rewrite lookup_insert_ne; [done|]. intros Heq.
      apply (Hrows (Some th, Some td)); [apply elem_of_app; by left|].
      simpl. by rewrite Heq.
  - intros a [[th|] [td|]] Hin Ha; try done. cbv zeta.
    case_bool_decide; [|done].
    rewrite lookup_insert_ne; [done|]. intros Heq.
    apply (Hrows (Some th, Some td)); [apply elem_of_app; by right|].
    simpl. by rewrite Heq.
Qed.

Lemma scrape_keeps_queried_accession_witness :
  exists r, scrape_biosample_metadata Cases.blank_value_driver "SAMC1" = Ok (Some r) /\
            r !! ("BioSample" : str) = Some ("SAMC1" : str).
Proof.
  apply (scrape_keeps_queried_accession Cases.blank_value_driver "SAMC1"
           Cases.blank_value_page); [vm_compute; reflexivity | vm_compute; reflexivity |].
  intros row Hrow. vm_compute in Hrow.
  repeat (apply elem_of_cons in Hrow as [->|Hrow]; [vm_compute; discriminate|]).
  by apply elem_of_nil in Hrow.
Defined.

(** X9: a row of the other tables named [Accession] is never stored: the
    record has the key [Accession] only if a row of the attribute table is
    stored under it. *)
Theorem scrape_skips_accession_row (drv : driver) (bs : str) (pg : page) :
  drv bs = Ok pg ->
  has_attribute_table pg = true ->
  (forall row, row ∈ attribute_rows pg -> row_key row <> Some ("Accession" : str)) ->
  exists r, scrape_biosample_metadata drv bs = Ok (Some r) /\
            r !! ("Accession" : str) = None.
Proof.
  intros Hdrv Htab Hrows. eexists. split; [by apply MetadataMore.scrape_found|].
  unfold scraped_record.
  apply (MetadataMore.fold_left_invariant
           (fun r : gmap str str => r !! ("Accession" : str) = None)).
  - apply (MetadataMore.fold_left_invariant
             (fun r : gmap str str => r !! ("Accession" : str) = None)).
    + by apply lookup_singleton_ne.
    + intros a [[th|] [td|]] Hin Ha; try done. cbv zeta.
      rewrite lookup_insert_ne; [done|]. intros Heq.
      apply (Hrows (Some th, Some td)); [done|]. simpl. by rewrite Heq.
  - intros a [[th|] [td|]] Hin Ha; try done. cbv zeta.
    case_bool_decide as Hk; [|done]. by rewrite lookup_insert_ne.
Qed.

Lemma scrape_skips_accession_row_witness :
  exists r, scrape_biosample_metadata Cases.blank_value_driver "SAMC1" = Ok (Some r) /\
            r !! ("Accession" : str) = None.
Proof.
  apply (scrape_skips_accession_row Cases.blank_value_driver "SAMC1"
           Cases.blank_value_page); [vm_compute; reflexivity | vm_compute; reflexivity |].
  intros row Hrow. vm_compute in Hrow.
  repeat (apply elem_of_cons in Hrow as [->|Hrow]; [vm_compute; discriminate|]).
  by apply elem_of_nil in Hrow.
Defined.

(** X10: a record returned by a metadata task is the scraped record without
    the entries whose value is blank; in particular no value of a collected
    record is blank. *)
Theorem task_drops_blank_values (drv : driver) (bs : str) (r : gmap str str) :
  _task drv bs = Some r -> r <> ∅ ->
  exists rec, scrape_biosample_metadata drv bs = Ok (Some rec) /\
              r = filter (fun kv => strip (snd kv) <> []) rec /\
              forall k v, r !! k = Some v -> strip v <> [].
Proof.
  unfold _task. destruct (scrape_biosample_metadata drv bs) as [[rec|]|]; try done.
  case_decide; [by intros [= <-]|].
  destruct (filter _ rec !! _) as [b|] eqn:Hb; [|done].
  intros [= <-] _. exists rec. split; [done|].
  rewrite insert_delete_eq, (insert_id _ _ _ Hb). split; [done|].
  intros k v Hkv. apply map_lookup_filter_Some in Hkv as [_ Hv]. exact Hv.
Qed.

Lemma task_drops_blank_values_witness :
  exists rec,
    scrape_biosample_metadata Cases.blank_value_driver "SAMC1" = Ok (Some rec) /\
    default ∅ (_task Cases.blank_value_driver "SAMC1")
    = filter (fun kv => strip (snd kv) <> []) rec.
Proof.
  destruct (task_drops_blank_values Cases.blank_value_driver "SAMC1"
              (default ∅ (_task Cases.blank_value_driver "SAMC1")))
    as (rec & H1 & H2 & _); [| |exists rec; exact (conj H1 H2)].
  - assert ((if _task Cases.blank_value_driver "SAMC1" is Some _ then true else false)
            = true) as Hb by (vm_compute; reflexivity).
    revert Hb. by destruct (_task Cases.blank_value_driver "SAMC1").
  - intros Heq.
    assert (default ∅ (_task Cases.blank_value_driver "SAMC1") !! ("BioSample" : str)
            = None) as Hnone by (rewrite Heq; apply lookup_empty).
    vm_compute in Hnone. discriminate.
Defined.


(** ** Read downloading *)

Module DownloadMore.
Import PyStr PyPath Metadata World Download Spec Observe.

Lemma https_is_not_url (u : str) :
  startswith "https://" u = true -> is_url u = false.
Proof.
  intros [post ->]%FilterFacts.startswith_spec. reflexivity.
Qed.

Lemma task_loop_events (E : env) (df : DataFrame) (species_dir : Path)
    (rows : list (list str)) (tasks : list (str * str)) (w : world) :
  events (task_loop E df species_dir rows tasks w).1 = events w.
Proof.
  revert tasks w. induction rows as [|row rows IH]; intros tasks w; [done|].
  cbn [task_loop]. unfold mbind, lift.
  destruct (cell df row "Run"); [|done].
  destruct (cell df row "BioSample"); [|done].
  destruct (cell df row "Download_path"); [|done].
  destruct (_ || _); [apply IH|].
  destruct (bool_decide _); [apply IH|]. unfold update_fs. by rewrite IH.
Qed.

(** A task adds no event, and at most its own transport call. *)
Lemma wget_download_frame (E : env) (url outpath : str) (w : world) :
  events (wget_download E url outpath w).1 = events w /\
  exists cs, calls (wget_download E url outpath w).1 = calls w ++ cs /\
             sublist cs [(url, outpath)].
Proof.
  destruct (path_exists w outpath) eqn:Hex.
  - rewrite (DownloadFacts.wget_download_exists E url outpath w Hex).
    split; [done|]. exists []. rewrite app_nil_r. split; [done|]. apply sublist_nil_l.
  - rewrite (DownloadFacts.wget_download_missing E url outpath w Hex).
    destruct (os_makedirs E (dirname outpath) (fs w)) as [fs1|e].
    + split; [done|]. by exists [(url, outpath)].
    + split; [done|]. exists []. rewrite app_nil_r. split; [done|]. apply sublist_nil_l.
Qed.

Lemma starmapstar_frame (E : env) (batch : list (str * str)) (w : world) :
  events (starmapstar (wget_download E) batch w).1 = events w /\
  exists cs, calls (starmapstar (wget_download E) batch w).1 = calls w ++ cs /\
             sublist cs batch.
Proof.
  revert w. induction batch as [|[url outpath] batch IH]; intros w.
  - cbn. split; [done|]. exists []. by rewrite app_nil_r.
  - cbn [starmapstar]. unfold mbind.
    destruct (wget_download_frame E url outpath w) as (He1 & c1 & Hc1 & Hs1).
    destruct (wget_download E url outpath w) as [w1 [[]|e]]; cbn [fst] in *.
    + destruct (IH w1) as (He & cs & Hc & Hs).
      split; [by rewrite He|]. exists (c1 ++ cs).
      split; [by rewrite Hc, Hc1, app_assoc|].
      by apply (sublist_app c1 [(url, outpath)] cs batch).
    + split; [done|]. exists c1. split; [done|].
      rewrite <- (app_nil_r c1).
      apply (sublist_app c1 [(url, outpath)] [] batch); [done | apply sublist_nil_l].
Qed.

Lemma run_batches_frame (E : env) (batches : list (list (str * str))) (w : world) :
  events (run_batches (wget_download E) batches w).1 = events w /\
  exists cs, calls (run_batches (wget_download E) batches w).1 = calls w ++ cs /\
             sublist cs (concat batches).
Proof.
  revert w. induction batches as [|batch batches IH]; intros w.
  - cbn. split; [done|]. exists []. by rewrite app_nil_r.
  - cbn [run_batches concat].
    destruct (starmapstar_frame E batch w) as (He1 & c1 & Hc1 & Hs1).
    destruct (starmapstar (wget_download E) batch w) as [w1 r1]; cbn [fst] in *.
    destruct (IH w1) as (He & cs & Hc & Hs).
    destruct (run_batches (wget_download E) batches w1) as [w2 r2]; cbn [fst] in *.
    split; [by rewrite He|]. exists (c1 ++ cs).
    split; [by rewrite Hc, Hc1, app_assoc | by apply sublist_app].
Qed.

Lemma starmap_frame (E : env) (th : positive) (tasks : list (str * str)) (w : world) :
  events (starmap th (wget_download E) tasks w).1 = events w /\
  exists cs, calls (starmap th (wget_download E) tasks w).1 = calls w ++ cs /\
             sublist cs tasks.
Proof.
  unfold starmap.
  destruct (run_batches_frame E
              (get_tasks (length tasks) (chunksize (length tasks) th) tasks) w)
    as (He & cs & Hc & Hs).
  rewrite DownloadFacts.starmap_batches in Hs. split; [done|]. by exists cs.
Qed.

(** A task returns when its directory can be made and the transport
    starts. *)
Lemma wget_download_returns (E : env) (url outpath : str) (w : world) :
  (forall p fs, p <> [] -> exists fs1, makedirs E p fs = Ok fs1) ->
  (forall u o fs, (wget E u o fs).2 = Ok tt) ->
  dirname outpath <> [] ->
  (wget_download E url outpath w).2 = Ok tt.
Proof.
  intros Hmk Hwget Hdir. destruct (path_exists w outpath) eqn:Hex.
  - by rewrite (DownloadFacts.wget_download_exists E url outpath w Hex).
  - rewrite (DownloadFacts.wget_download_missing E url outpath w Hex).
    rewrite DownloadFacts.os_makedirs_nonempty by done.
    destruct (Hmk (dirname outpath) (fs w) Hdir) as [fs1 ->]. apply Hwget.
Qed.

Lemma starmapstar_returns (E : env) (batch : list (str * str)) (w : world) :
  (forall p fs, p <> [] -> exists fs1, makedirs E p fs = Ok fs1) ->
  (forall u o fs, (wget E u o fs).2 = Ok tt) ->
  (forall t, t ∈ batch -> dirname t.2 <> []) ->
  (starmapstar (wget_download E) batch w).2 = Ok tt.
Proof.
  intros Hmk Hwget. revert w.
  induction batch as [|[url outpath] batch IH]; intros w Hdir; [done|].
  cbn [starmapstar]. unfold mbind.
  pose proof (wget_download_returns E url outpath w Hmk Hwget
                (Hdir (url, outpath) ltac:(by left))) as H1.
  destruct (wget_download E url outpath w) as [w1 r1]; cbn [snd] in H1. subst r1.
  apply IH. intros t Ht. apply Hdir. by right.
Qed.

Lemma run_batches_returns (E : env) (batches : list (list (str * str))) (w : world) :
  (forall p fs, p <> [] -> exists fs1, makedirs E p fs = Ok fs1) ->
  (forall u o fs, (wget E u o fs).2 = Ok tt) ->
  (forall t, t ∈ concat batches -> dirname t.2 <> []) ->
  (run_batches (wget_download E) batches w).2 = Ok tt.
Proof.
  intros Hmk Hwget. revert w.
  induction batches as [|batch batches IH]; intros w Hdir; [done|].
  cbn [run_batches concat] in *.
  pose proof (starmapstar_returns E batch w Hmk Hwget) as H1.
  destruct (starmapstar (wget_download E) batch w) as [w1 r1]; cbn [snd] in H1.
  rewrite H1 by (intros t Ht; apply Hdir, elem_of_app; by left).
  specialize (IH w1).
  destruct (run_batches (wget_download E) batches w1) as [w2 r2]; cbn [snd] in *.
  apply IH. intros t Ht. apply Hdir, elem_of_app. by right.
Qed.

End DownloadMore.

Import PyStr PyPath Metadata World Download Observe.

(** X11: every task derived from the table has a URL that starts with
    [ftp://] or [http://] (so never with [https://]), taken from the
    [Download_path] of a row whose [BioSample] is not empty, and its
    destination is [species_dir / biosample / basename(url)]. *)
Theorem download_tasks_derivation (E : env) (df : DataFrame) (species_dir : Path)
    (w w' : world) (tasks : list (str * str)) :
  task_loop E df species_dir (rows df) [] w = (w', Ok tasks) ->
  Forall (fun t =>
            is_url (fst t) = true /\
            startswith "https://" (fst t) = false /\
            exists row biosample download_paths,
              row ∈ rows df /\
              cell df row "BioSample" = Ok biosample /\ biosample <> [] /\
              cell df row "Download_path" = Ok download_paths /\
              fst t ∈ split "|" download_paths /\
              snd t = path_str (joinpath (joinpath species_dir biosample)
                                         (basename (fst t))))
         tasks.
Proof.
  set (Q := fun t : str * str => _).
  assert (forall rs acc w w' tasks,
            (forall r, r ∈ rs -> r ∈ Metadata.rows df) ->
            Forall Q acc ->
            task_loop E df species_dir rs acc w = (w', Ok tasks) ->
            Forall Q tasks) as Hgen.
  { clear w w' tasks. intros rs.
    induction rs as [|row rs IH]; intros acc w w' tasks Hsub Hacc.
    - cbn [task_loop]. unfold ret. by intros [= _ <-].
    - cbn [task_loop]. unfold mbind, lift.
      destruct (cell df row "Run"); [|done].
      destruct (cell df row "BioSample") as [biosample|] eqn:Hb; [|done].
      destruct (cell df row "Download_path") as [paths|] eqn:Hp; [|done].
      assert (forall r, r ∈ rs -> r ∈ Metadata.rows df) as Hsub'
        by (intros r Hr; apply Hsub; by right).
      destruct (bool_decide (biosample = [])) eqn:Hbe; [by apply IH|].
      destruct (bool_decide (paths = [])) eqn:Hpe; [by apply IH|]. cbn [orb].
      destruct (bool_decide (filter _ _ = [])); [by apply IH|]. unfold update_fs.
      apply IH; [done|]. apply Forall_app. split; [done|].
      apply Forall_forall. intros t Ht.
      apply list_elem_of_In, in_map_iff in Ht as [url [<- Hurl]].
      apply list_elem_of_In, list_elem_of_filter in Hurl as [Hu Hin].
      apply Is_true_true in Hu. subst Q. cbn [fst snd].
      split; [done|]. split.
      { destruct (startswith "https://" url) eqn:Hs; [|done].
        apply DownloadMore.https_is_not_url in Hs. congruence. }
      exists row, biosample, paths. split; [apply Hsub; by left|].
      split; [done|]. split; [by apply bool_decide_eq_false in Hbe|]. done. }
  intros H. by apply (Hgen (Metadata.rows df) [] w w' tasks).
Qed.

Lemma download_tasks_derivation_witness :
  exists tasks,
    Forall (fun t : str * str =>
              is_url (fst t) = true /\ startswith "https://" (fst t) = false)
           tasks /\ length tasks = 3.
Proof.
  pose (E := Demo.demo_env (fun _ => Demo.no_items)).
  pose (df := {| columns := ["Run" : str; "BioSample" : str; "Download_path" : str];
                 rows := [["R1" : str; "SAMN1" : str;
                           "http://x/a_1.fastq.gz|https://x/skipped.fq.gz|http://x/a_2.fastq.gz" : str];
                          ["R2" : str; [] ; "http://x/dropped.fastq.gz" : str];
                          ["R3" : str; "SAMN1" : str; "ftp://x/b.fastq.gz" : str]] |}).
  pose (dir := ["/" : str; "DLs" : str]).
  pose (r := task_loop E df dir (rows df) [] Demo.empty_world).
  exists (match r.2 with Ok t => t | Raise _ => [] end).
  split; [|vm_compute; reflexivity].
  pose proof (download_tasks_derivation E df dir Demo.empty_world r.1
                (match r.2 with Ok t => t | Raise _ => [] end)) as H.
  eapply Forall_impl; [apply H; vm_compute; reflexivity|].
  intros t (H1 & H2 & _). by split.
Defined.


(** X13: when every directory can be made and the transport starts, a
    pool whose destinations all have a directory part returns. *)
Theorem starmap_returns (E : env) (tasks : list (str * str)) (w : world) :
  (forall p fs, p <> [] -> exists fs1, makedirs E p fs = Ok fs1) ->
  (forall u o fs, (wget E u o fs).2 = Ok tt) ->
  (forall t, t ∈ tasks -> dirname t.2 <> []) ->
  (starmap (threads E) (wget_download E) tasks w).2 = Ok tt.
Proof.
  intros Hmk Hwget Hdir. unfold starmap. apply DownloadMore.run_batches_returns; try done.
  by rewrite DownloadFacts.starmap_batches.
Qed.

Lemma starmap_returns_witness :
  (starmap 8 (wget_download (Demo.demo_env (fun _ => Demo.no_items)))
     [("http://x/a_1.fastq.gz" : str, "/DLs/SAMC1/a_1.fastq.gz" : str);
      ("http://x/b.fastq.gz" : str, "/DLs/SAMC1/b.fastq.gz" : str)]
     Demo.empty_dest_world).2 = Ok tt.
Proof.
  apply (starmap_returns (Demo.demo_env (fun _ => Demo.no_items))).
  - intros p fs _. by eexists.
  - reflexivity.
  - intros t Ht.
    repeat (apply elem_of_cons in Ht as [->|Ht]; [vm_compute; discriminate|]).
    by apply elem_of_nil in Ht.
Defined.

(** X14: the batches of the pool are the tasks, in list order: no task is
    lost and none is run twice; no batch is empty, and none is longer than
    the batch size. *)
Theorem pool_batches_are_the_tasks (th : positive) (tasks : list (str * str)) :
  let size := chunksize (length tasks) th in
  let batches := get_tasks (length tasks) size tasks in
  concat batches = tasks /\
  Forall (fun batch => batch <> [] /\ length batch <= size) batches.
Proof.
  intros size batches. split; [apply DownloadFacts.starmap_batches|].
  subst batches. generalize (length tasks). clearbody size. intros fuel.
  revert tasks. induction fuel as [|fuel IH]; intros tasks; [by constructor|].
  cbn [get_tasks]. destruct tasks as [|t tasks]; [by constructor|].
  destruct size as [|size]; [by constructor|].
  constructor; [|apply IH]. split; [done|]. rewrite length_take. lia.
Qed.


(** ** Per-genome workflow and main loop *)

Module OrchestratorMore.
Import PyStr PyPath Metadata World Download Orchestrator Spec Observe.

(** Relations between the world before and after a computation that are
    kept by sequencing. *)
Section Frame.
Variable R : world -> world -> Prop.
Hypothesis R_refl : forall w, R w w.
Hypothesis R_trans : forall w1 w2 w3, R w1 w2 -> R w2 w3 -> R w1 w3.
Hypothesis R_write : forall p t w, R w (emit (EvWrite p t) w).1.
Hypothesis R_fs : forall f w, R w (update_fs f w).1.

Lemma frame_ret {A} (a : A) : forall w, R w (ret a w).1.
Proof. intros w. apply R_refl. Qed.

Lemma frame_lift {A} (r : result A) : forall w, R w (lift r w).1.
Proof. intros w. apply R_refl. Qed.

Lemma frame_mbind {A B} (c : M A) (k : A -> M B) :
  (forall w, R w (c w).1) -> (forall a w, R w (k a w).1) ->
  forall w, R w (mbind c k w).1.
Proof.
  intros Hc Hk w. unfold mbind. specialize (Hc w).
  destruct (c w) as [w1 [a|e]]; [|done].
  apply R_trans with w1; [done | apply Hk].
Qed.

Lemma process_genome_frame (E : env) (genome : str) (dl : Path) (dry : bool) :
  (dry = false -> forall text dir w, R w (download_from_runinfo E text dir w).1) ->
  forall w, R (emit (EvProcess genome) w).1 (process_genome E genome dl dry w).1.
Proof.
  intros Hdl w. unfold process_genome. unfold mbind at 1. cbn [emit fst].
  generalize ({| fs := fs w; calls := calls w;
                 events := events w ++ [EvProcess genome] |}).
  clear w. apply frame_mbind; [apply R_fs|]. intros _.
  apply frame_mbind; [apply frame_lift|]. intros _.
  destruct (d_no_items _); [apply frame_ret|].
  destruct (negb _); [apply frame_ret|].
  destruct (_ =? _)%Z; [apply frame_ret|].
  apply frame_mbind; [apply frame_lift|]. intros _.
  destruct (d_runinfo _) as [runinfo|]; [|apply frame_ret].
  apply frame_mbind; [apply R_write|]. intros _.
  apply frame_mbind; [apply R_write|]. intros _.
  destruct (_ <=? _)%Z; [apply frame_ret|].
  apply frame_mbind; [apply frame_lift|]. intros meta.
  apply frame_mbind.
  { destruct meta; [apply R_write | apply frame_ret]. }
  intros _. apply frame_mbind; [|intros; apply frame_ret].
  destruct dry; [apply frame_ret|].
  apply frame_mbind; [by apply Hdl|]. intros _ w.
  destruct (Manifest.write_read_manifest _ _ _) as [[tsv|]|e];
    [apply R_write | apply R_refl | apply R_refl].
Qed.


End Frame.

(** The relation "only files were written and transport calls added". *)
Lemma writes_refl (w : world) :
  (exists ws, events w = events w ++ ws /\ Forall is_write ws) /\
  (exists cs, calls w = calls w ++ cs).
Proof. split; exists []; by rewrite app_nil_r. Qed.

Lemma download_from_runinfo_frame (E : env) (text : str) (dir : Path) (w : world) :
  events (download_from_runinfo E text dir w).1 = events w /\
  exists cs, calls (download_from_runinfo E text dir w).1 = calls w ++ cs.
Proof.
  unfold download_from_runinfo, mbind, lift.
  destruct (read_csv_usecols E text) as [df|e].
  2:{ split; [done|]. exists []. by rewrite app_nil_r. }
  pose proof (DownloadMore.task_loop_events E (applymap strip df) dir
                (rows (applymap strip df)) [] w) as He.
  pose proof (DownloadFacts.task_loop_calls E (applymap strip df) dir
                (rows (applymap strip df)) [] w) as Hc.
  destruct (task_loop _ _ _ _ _ w) as [w1 [tasks|e]]; cbn [fst snd] in *.
  2:{ split; [done|]. exists []. rewrite app_nil_r. exact Hc. }
  destruct tasks as [|t tasks].
  { split; [done|]. exists []. rewrite app_nil_r. exact Hc. }
  destruct (DownloadMore.starmap_frame E (threads E) (t :: tasks) w1)
    as (He' & cs & Hc' & _).
  split; [by rewrite He', He|]. exists cs. by rewrite Hc', Hc.
Qed.

Lemma process_genome_events (E : env) (genome : str) (dl : Path) (dry : bool)
    (w : world) :
  (exists ws, events (process_genome E genome dl dry w).1
              = events w ++ EvProcess genome :: ws /\ Forall is_write ws) /\
  (exists cs, calls (process_genome E genome dl dry w).1 = calls w ++ cs).
Proof.
  pose proof (process_genome_frame
    (fun w w' => (exists ws, events w' = events w ++ ws /\ Forall is_write ws) /\
                 (exists cs, calls w' = calls w ++ cs))) as H.
  destruct (H writes_refl) with (E := E) (genome := genome) (dl := dl) (dry := dry) (w := w)
    as [[ws [Hws Hall]] [cs Hcs]].
  - intros w1 w2 w3 [[ws1 [H1 A1]] [cs1 C1]] [[ws2 [H2 A2]] [cs2 C2]]. split.
    + exists (ws1 ++ ws2). rewrite H2, H1, app_assoc. split; [done|].
      by apply Forall_app.
    + exists (cs1 ++ cs2). by rewrite C2, C1, app_assoc.
  - intros p t w0. split; [exists [EvWrite p t]; split; [done | by repeat constructor]|].
    exists []. by rewrite app_nil_r.
  - intros f w0. split; exists []; by rewrite app_nil_r.
  - intros _ text dir w0.
    destruct (download_from_runinfo_frame E text dir w0) as [He [cs Hc]].
    split; [|by exists cs]. exists []. by rewrite app_nil_r.
  - split; [|by exists cs]. exists ws. split; [|done].
    rewrite Hws. cbn [emit fst events]. by rewrite <- app_assoc.
Qed.

Lemma processed_app_writes (evs0 ws : list event) (g : str) :
  Forall is_write ws ->
  omap (fun e => match e with EvProcess g => Some g | _ => None end)
       (evs0 ++ EvProcess g :: ws)
  = omap (fun e => match e with EvProcess g => Some g | _ => None end) evs0 ++ [g].
Proof.
  intros Hws. rewrite omap_app. f_equal. cbn. f_equal.
  induction Hws as [|e ws He _ IH]; [done|]. by destruct e.
Qed.

Lemma process_genome_processed (E : env) (genome : str) (dl : Path) (dry : bool)
    (w : world) :
  processed (process_genome E genome dl dry w).1 = processed w ++ [genome].
Proof.
  destruct (process_genome_events E genome dl dry w) as [[ws [H Hws]] _].
  unfold processed. rewrite H. by apply processed_app_writes.
Qed.


End OrchestratorMore.

Import PyStr PyPath Metadata World Download Orchestrator Observe.

(** X15: a dry run makes no transport call. *)
Theorem dry_run_no_transport (E : env) (genome : str) (dl : Path) (w : world) :
  calls (process_genome E genome dl true w).1 = calls w.
Proof.
  pose proof (OrchestratorMore.process_genome_frame
                (fun w w' => calls w' = calls w)) as H.
  rewrite (H (fun w => eq_refl)) with (E := E) (genome := genome) (dl := dl) (w := w);
    try done.
  intros w1 w2 w3 H1 H2. by rewrite H2.
Qed.




(** X18: the entities entered by the loop are a prefix of the list, in list
    order, each entered once; the whole list when the loop ends normally. *)
Theorem for_genomes_processed_in_order (E : env) (genomes : list str) (dl : Path)
    (dry : bool) (w : world) :
  exists entered,
    processed (for_genomes E genomes dl dry w).1 = processed w ++ entered /\
    entered `prefix_of` genomes /\
    ((for_genomes E genomes dl dry w).2 = Ok tt -> entered = genomes).
Proof.
  revert w. induction genomes as [|g genomes IH]; intros w.
  - exists []. cbn. by rewrite app_nil_r.
  - cbn [for_genomes]. unfold mbind.
    pose proof (OrchestratorMore.process_genome_processed E g dl dry w) as Hp.
    destruct (process_genome E g dl dry w) as [w1 [outcome|e]]; cbn [fst snd] in *.
    + destruct (IH w1) as (entered & He & Hpre & Hok).
      exists (g :: entered). rewrite He, Hp, <- app_assoc.
      split; [done|]. split; [by apply prefix_cons|].
      intros H. by rewrite (Hok H).
    + exists [g]. split; [done|]. split; [|done].
      by apply prefix_cons, prefix_nil.
Qed.


(** ** Read manifest *)

Module ManifestMore.
Import PyStr Regex PyPath Manifest Spec Observe ManifestFacts.

Lemma N_of_ascii_inj (a b : ascii) : N_of_ascii a = N_of_ascii b -> a = b.
Proof.
  intros H. rewrite <- (ascii_N_embedding a), <- (ascii_N_embedding b). by rewrite H.
Qed.

Lemma leb_antisym (s t : str) : leb s t = true -> leb t s = true -> s = t.
Proof.
  revert t. induction s as [|a s IH]; intros [|b t]; simpl; try done.
  rewrite (N.compare_antisym (N_of_ascii a) (N_of_ascii b)).
  destruct (N.compare_spec (N_of_ascii a) (N_of_ascii b)) as [Heq|_|_]; simpl; try done.
  intros H1 H2. apply N_of_ascii_inj in Heq. subst. f_equal. by apply IH.
Qed.

Lemma leb_refl (s : str) : leb s s = true.
Proof. destruct (OrderFacts.leb_total s s); done. Qed.

Lemma path_leb_total (p q : Path) : path_leb p q = true \/ path_leb q p = true.
Proof.
  revert q. induction p as [|a p IH]; intros [|b q]; simpl; auto.
  repeat case_bool_decide; subst; try done; auto.
  apply OrderFacts.leb_total.
Qed.

Lemma path_leb_trans (p q r : Path) :
  path_leb p q = true -> path_leb q r = true -> path_leb p r = true.
Proof.
  revert q r. induction p as [|a p IH]; intros [|b q] [|c r]; simpl; try done.
  repeat case_bool_decide; subst; try done.
  - apply IH.
  - intros H1 H2. exfalso. by pose proof (leb_antisym _ _ H1 H2).
  - apply OrderFacts.leb_trans.
Qed.

Lemma path_leb_antisym (p q : Path) :
  path_leb p q = true -> path_leb q p = true -> p = q.
Proof.
  revert q. induction p as [|a p IH]; intros [|b q]; simpl; try done.
  repeat case_bool_decide; subst; try done.
  - intros H1 H2. f_equal. by apply IH.
  - intros H1 H2. exfalso. by pose proof (leb_antisym _ _ H1 H2).
Qed.

#[global] Instance path_le_total : Total path_le.
Proof. intros p q. apply path_leb_total. Qed.

#[global] Instance path_le_trans : Transitive path_le.
Proof. intros p q r. apply path_leb_trans. Qed.

#[global] Instance path_le_antisym : AntiSymm (=) path_le.
Proof. intros p q. apply path_leb_antisym. Qed.

Lemma sorted_eq (ps : list Path) : sorted ps = merge_sort path_le ps.
Proof. reflexivity. Qed.

Lemma sorted_sorted (ps : list Path) : StronglySorted path_le (sorted ps).
Proof. rewrite sorted_eq. apply StronglySorted_merge_sort; apply _. Qed.

Lemma sorted_perm (ps : list Path) : sorted ps ≡ₚ ps.
Proof. rewrite sorted_eq. apply merge_sort_Permutation. Qed.

(** Sorting forgets the order of its input. *)
Lemma sorted_of_perm (ps qs : list Path) : ps ≡ₚ qs -> sorted ps = sorted qs.
Proof.
  intros H. apply (StronglySorted_unique path_le); try apply sorted_sorted.
  by rewrite !sorted_perm.
Qed.

Lemma nonempty_perm {A} (l k : list A) : l ≡ₚ k -> nonempty l = nonempty k.
Proof.
  intros H. apply Permutation_length in H. by destruct l, k.
Qed.

Lemma buckets_perm (files : list Path) :
  files ≡ₚ short1_of files ++ short2_of files ++ long_of files.
Proof.
  unfold short1_of, short2_of, long_of.
  induction files as [|f files IH]; [done|]. rewrite !filter_cons.
  destruct (is_read1 f), (is_read2 f); simpl;
    repeat case_decide; try done; try tauto.
  - by constructor.
  - by constructor.
  - rewrite <- Permutation_middle. by constructor.
  - rewrite app_assoc, <- Permutation_middle, <- app_assoc. by constructor.
Qed.



End ManifestMore.

Import PyStr Regex PyPath Spec Observe.

(** X19: the three buckets hold every globbed file exactly once: together
    they are a rearrangement of the file list, so [fastq_count] is the sum of
    their sizes. *)
Theorem buckets_partition (files : list Path) :
  let '(short1, short2, long_reads) := Manifest.buckets files in
  files ≡ₚ short1 ++ short2 ++ long_reads /\
  length files = length short1 + length short2 + length long_reads.
Proof.
  rewrite ManifestFacts.buckets_filter.
  pose proof (ManifestMore.buckets_perm files) as H. split; [done|].
  apply Permutation_length in H. rewrite !length_app in H. lia.
Qed.

(** X20: for a non-empty bucket, the path written in the manifest is the
    least path of the bucket, and the remaining paths follow in increasing
    order in [long_read_extra]. *)
Theorem representative_is_least (ps : list Path) :
  ps <> [] ->
  exists p rest,
    sorted ps = p :: rest /\ p :: rest ≡ₚ ps /\
    (forall q, q ∈ ps -> path_le p q) /\
    StronglySorted path_le rest /\
    Manifest.first_sorted ps = path_str p /\
    (if (1 <? length ps)%nat
     then join ";" (map path_str (skipn 1 (sorted ps))) else [])
    = join ";" (map path_str rest).
Proof.
  intros Hne.
  pose proof (ManifestMore.sorted_sorted ps) as Hs.
  pose proof (ManifestMore.sorted_perm ps) as Hp.
  destruct (sorted ps) as [|p rest] eqn:E.
  { apply Permutation.Permutation_nil in Hp. done. }
  exists p, rest. apply StronglySorted_cons in Hs as [Hall Hrest].
  split; [done|]. split; [done|]. split; [|split; [done|split]].
  - intros q Hq. rewrite <- Hp in Hq. apply elem_of_cons in Hq as [->|Hq].
    + destruct (ManifestMore.path_leb_total p p); done.
    + rewrite Forall_forall in Hall. by apply Hall.
  - unfold Manifest.first_sorted. rewrite E. by destruct ps.
  - apply Permutation_length in Hp. cbn [length] in Hp.
    destruct (Nat.ltb_spec 1 (length ps)); [done|].
    destruct rest; [done | simpl in *; lia].
Qed.

Lemma representative_is_least_witness :
  exists p rest,
    sorted Demo.orphan_and_long_dir = p :: rest /\
    Manifest.first_sorted Demo.orphan_and_long_dir = path_str p.
Proof.
  destruct (representative_is_least Demo.orphan_and_long_dir) as (p & rest & H1 & _ & _ & _ & H2 & _);
    [done|]. by exists p, rest.
Defined.

(** X21: the row written for a sample directory does not depend on the
    order in which the operating system lists its files. *)
Theorem manifest_row_listing_order (biosample : Path) (files files' : list Path) :
  files ≡ₚ files' ->
  Manifest.manifest_row biosample files = Manifest.manifest_row biosample files'.
Proof.
  intros Hp. unfold Manifest.manifest_row.
  rewrite !ManifestFacts.buckets_filter.
  assert (short1_of files ≡ₚ short1_of files') as H1 by (unfold short1_of; by rewrite Hp).
  assert (short2_of files ≡ₚ short2_of files') as H2 by (unfold short2_of; by rewrite Hp).
  assert (long_of files ≡ₚ long_of files') as HL by (unfold long_of; by rewrite Hp).
  unfold Manifest.first_sorted, Manifest.status.
  rewrite (ManifestMore.sorted_of_perm _ _ H1), (ManifestMore.sorted_of_perm _ _ H2),
    (ManifestMore.sorted_of_perm _ _ HL).
  rewrite (ManifestMore.nonempty_perm _ _ H1), (ManifestMore.nonempty_perm _ _ H2),
    (ManifestMore.nonempty_perm _ _ HL).
  by rewrite (Permutation_length Hp), (Permutation_length HL).
Qed.

Lemma manifest_row_listing_order_witness :
  Manifest.manifest_row ["/" : str; "DLs" : str; "SAMC1" : str] Demo.orphan_and_long_dir
  = Manifest.manifest_row ["/" : str; "DLs" : str; "SAMC1" : str]
      (rev Demo.orphan_and_long_dir).
Proof. apply manifest_row_listing_order. apply Permutation_swap. Defined.



(** ** The input list *)

Module InputMore.
Import PyStr PyStrFacts.



End InputMore.

Import PyStr Orchestrator.

